(** * Krita dynamic panel manager: layout persistence, panel widget, extension

    A shallow embedding of the three modules of [krita_dynamic_panel_manager]
    and the properties its specification states about them:

    - [Layout]    : [panel_layout_manager.py]   (save / load / validate)
    - [Widget]    : [drag_drop_panel_widget.py] (gesture and drop-target handlers)
    - [Extension] : [panel_manager_extension.py] (the column mapping)

    Python values are modelled by inductive types, exceptions by an explicit
    result type, mutable objects by explicit state passing.  Python strings
    are modelled as ASCII strings. *)

From Stdlib Require Import ZArith Lia String Ascii List.
From Stdlib Require Import Decimal DecimalString DecimalPos DecimalN DecimalZ.
From stdpp Require Import gmap strings list fin_maps.

Set Warnings "-register-all".

Local Open Scope string_scope.
Local Open Scope list_scope.
Local Open Scope Z_scope.

(* ===================================================================== *)
(** * Python primitives shared by the three modules                       *)
(* ===================================================================== *)

Module Py.

(** The exceptions that occur in the modelled code.  All of them derive from
    [Exception], which is what every [except Exception] clause catches. *)
Inductive Exn :=
| ValueError (msg : string)
| KeyError (key : string)
| TypeError (msg : string)
| AttributeError (attr : string)
| NameError (name : string)
| OverflowError
| OSError
| JSONDecodeError
| RuntimeError (msg : string).

(** Result of evaluating an expression that may raise. *)
Inductive Res (A : Type) :=
| Ok (a : A)
| Raise (e : Exn).
Arguments Ok {A} a.
Arguments Raise {A} e.

#[global] Instance res_ret : MRet Res := fun A a => Ok a.
#[global] Instance res_bind : MBind Res := fun A B k r =>
  match r with
  | Ok a => k a
  | Raise e => Raise e
  end.

(** [logging]: a record is a level, the fixed part of the message and, for
    the f-strings that end in [str(e)], the exception. *)
Inductive Level := INFO | WARNING | ERROR.
Record LogRecord := mkLog { level : Level; message : string; cause : option Exn }.

(** [d[k] = v] on an insertion-ordered dict: an existing key keeps its
    position, a new key goes last. *)
Fixpoint dict_set {K V : Type} `{EqDecision K} (k : K) (v : V)
         (d : list (K * V)) : list (K * V) :=
  match d with
  | [] => [(k, v)]
  | (k', v') :: d' =>
      if decide (k = k') then (k', v) :: d' else (k', v') :: dict_set k v d'
  end.

Fixpoint dict_get {K V : Type} `{EqDecision K} (k : K)
         (d : list (K * V)) : option V :=
  match d with
  | [] => None
  | (k', v') :: d' => if decide (k = k') then Some v' else dict_get k d'
  end.

(** [max(iterable)] over integers; [None] is the [ValueError] of an empty
    argument. *)
Fixpoint py_max (l : list Z) : option Z :=
  match l with
  | [] => None
  | x :: l' =>
      match py_max l' with
      | None => Some x
      | Some m => Some (Z.max x m)
      end
  end.

(** [str(n)] for an [int]: decimal digits, [-] for negative numbers. *)
Definition str_of_int (z : Z) : string :=
  NilZero.string_of_int (Z.to_int z).

(** [int(s)] for a [str], base 10: surrounding whitespace (tab, line feed,
    vertical tab, form feed, carriage return, space) is stripped, one
    optional sign, then decimal digits in which single underscores may
    separate digits.  Anything else is a [ValueError]; so is a literal of
    more than [MAX_STR_DIGITS] digits. *)
Definition is_space (a : ascii) : bool :=
  let n := nat_of_ascii a in
  ((9 <=? n)%nat && (n <=? 13)%nat) || (n =? 32)%nat.

Definition digit_val (a : ascii) : option Z :=
  let n := Z.of_nat (nat_of_ascii a) in
  if (48 <=? n) && (n <=? 57) then Some (n - 48) else None.

Fixpoint lstrip (l : list ascii) : list ascii :=
  match l with
  | [] => []
  | c :: l' => if is_space c then lstrip l' else l
  end.

Definition strip (l : list ascii) : list ascii :=
  rev (lstrip (rev (lstrip l))).

Fixpoint digits_val (acc : Z) (after_digit : bool) (l : list ascii) : option Z :=
  match l with
  | [] => if after_digit then Some acc else None
  | c :: l' =>
      match digit_val c with
      | Some d => digits_val (10 * acc + d) true l'
      | None =>
          if Ascii.eqb c "_" && after_digit
          then digits_val acc false l'
          else None
      end
  end.

(** The limit on conversions between [int] and [str]
    ([sys.get_int_max_str_digits()]): digits are counted, signs,
    underscores and whitespace are not. *)
Definition MAX_STR_DIGITS : Z := 4300.

Definition is_digit (a : ascii) : bool :=
  match digit_val a with
  | Some _ => true
  | None => false
  end.

Definition digit_count (l : list ascii) : Z :=
  Z.of_nat (length (filter (fun c => is_digit c = true) l)).

Definition int_of_str (s : string) : Res Z :=
  let invalid := Raise (ValueError "invalid literal for int() with base 10") in
  let body (sign : Z) (l : list ascii) :=
    match digits_val 0 false l with
    | Some n =>
        if MAX_STR_DIGITS <? digit_count (list_ascii_of_string s)
        then Raise (ValueError "Exceeds the limit (4300 digits) for integer string conversion")
        else Ok (sign * n)
    | None => invalid
    end in
  match strip (list_ascii_of_string s) with
  | c :: l =>
      if Ascii.eqb c "-" then body (-1) l
      else if Ascii.eqb c "+" then body 1 l
      else body 1 (c :: l)
  | [] => invalid
  end.

(** [str(n)] as the layout manager evaluates it: an [int] of more than
    [MAX_STR_DIGITS] digits raises instead. *)
Definition str_int_ok (z : Z) : Prop :=
  digit_count (list_ascii_of_string (str_of_int z)) <= MAX_STR_DIGITS.

Definition str_int (z : Z) : Res string :=
  if MAX_STR_DIGITS <? digit_count (list_ascii_of_string (str_of_int z))
  then Raise (ValueError "Exceeds the limit (4300 digits) for integer string conversion")
  else Ok (str_of_int z).



End Py.

(* ===================================================================== *)
(** * panel_layout_manager.py                                             *)
(* ===================================================================== *)

Module Layout.
Import Py.

(** [QRect], observed through [x()], [y()], [width()], [height()] and built
    by [QRect(x, y, width, height)]; the four values are C [int]s. *)
Record QRect := mkQRect {
  rect_x : Z; rect_y : Z; rect_width : Z; rect_height : Z }.

Definition INT_MIN : Z := -2147483648.
Definition INT_MAX : Z := 2147483647.

Definition c_int_range (z : Z) : bool := (INT_MIN <=? z) && (z <=? INT_MAX).

(** A live panel, as far as [saveLayout] looks at it: [panel.geometry()] and
    [panel.isVisible()]. *)
Record Panel := mkPanel { geometry : QRect; isVisible : bool }.

(** What [json.load] returns: objects are dicts with [str] keys, listed in
    insertion order. *)
Inductive Json :=
| JNull
| JBool (b : bool)
| JInt (z : Z)
| JFloat (literal : string)
| JStr (s : string)
| JArr (elems : list Json)
| JObj (items : list (string * Json)).

(** The file at [config_path]: it may be impossible to open, hold text that
    [json.load] rejects, or hold a document.  [json.dump] of a document made
    of [str]-keyed dicts, [int]s and [bool]s writes text that [json.load]
    reads back as the same document. *)
Inductive FileContent :=
| Unreadable
| Malformed
| Document (doc : Json).

(** The manager object and the store it works on.  [file = None]: no file at
    [config_path]; [writable]: whether [open(config_path, 'w')] succeeds. *)
Record Manager := mkManager {
  config_path : option string;
  file : option FileContent;
  writable : bool;
  log : list LogRecord }.

Definition logger (lv : Level) (msg : string) (e : option Exn) (m : Manager) : Manager :=
  mkManager (config_path m) (file m) (writable m) (log m ++ [mkLog lv msg e]).

(** Writing a document through [open(config_path, 'w')]: the file is
    created if it was missing, and truncated and rewritten if it was there.
    What was written can be read back unless the file was one that cannot
    be opened for reading; its permissions stay what they were. *)
Definition write_file (doc : Json) (m : Manager) : Manager :=
  mkManager (config_path m)
            (Some (match file m with
                   | Some Unreadable => Unreadable
                   | _ => Document doc
                   end))
            (writable m) (log m).

Definition remove_file (m : Manager) : Manager :=
  mkManager (config_path m) None (writable m) (log m).

(** Truth value of [self.config_path]: [None] and the empty string are
    false. *)
Definition path_set (p : option string) : bool :=
  match p with
  | Some s => negb (String.eqb s "")
  | None => false
  end.

(** ** saveLayout *)

Definition panel_record (panel : Panel) : Json :=
  let geometry := geometry panel in
  JObj [ ("x", JInt (rect_x geometry));
         ("y", JInt (rect_y geometry));
         ("width", JInt (rect_width geometry));
         ("height", JInt (rect_height geometry));
         ("visible", JBool (isVisible panel)) ].

(** The loop of [saveLayout]: the record is built first, then
    [str(column_id)], which may raise. *)
Fixpoint build_layout_data (panel_columns : list (Z * Panel))
         (layout_data : list (string * Json)) : Res (list (string * Json)) :=
  match panel_columns with
  | [] => Ok layout_data
  | (column_id, panel) :: rest =>
      let record := panel_record panel in
      key ← str_int column_id;
      build_layout_data rest (dict_set key record layout_data)
  end.

Definition saveLayout (panel_columns : list (Z * Panel)) (m : Manager) : bool * Manager :=
  if negb (path_set (config_path m)) then
    (false, logger ERROR "Error saving layout: "
                   (Some (ValueError "Configuration path not set")) m)
  else
    match build_layout_data panel_columns [] with
    | Raise e => (false, logger ERROR "Error saving layout: " (Some e) m)
    | Ok layout_data =>
        if writable m then
          (true, logger INFO "Layout saved successfully" None
                        (write_file (JObj layout_data) m))
        else
          (false, logger ERROR "Error saving layout: " (Some OSError) m)
    end.

(** ** loadLayout *)

(** What [loadLayout] and [getDefaultLayout] put under a column id:
    [{'geometry': QRect, 'visible': <whatever the record held>}]. *)
Record Entry := mkEntry { entry_geometry : QRect; entry_visible : Json }.

(** [data[key]] for a [str] key. *)
Definition subscript (data : Json) (key : string) : Res Json :=
  match data with
  | JObj items =>
      match dict_get key items with
      | Some v => Ok v
      | None => Raise (KeyError key)
      end
  | JArr _ => Raise (TypeError "list indices must be integers or slices, not str")
  | JStr _ => Raise (TypeError "string indices must be integers")
  | _ => Raise (TypeError "object is not subscriptable")
  end.

(** Conversion of a Python argument to a C [int] parameter of the toolkit:
    an [int] in range (a [bool] is an [int]); a larger one overflows. *)
Definition c_int (v : Json) : Res Z :=
  match v with
  | JInt z => if c_int_range z then Ok z else Raise OverflowError
  | JBool b => Ok (if b then 1 else 0)
  | _ => Raise (TypeError "arguments did not match any overloaded call")
  end.

Definition new_QRect (a b c d : Json) : Res QRect :=
  x ← c_int a; y ← c_int b; width ← c_int c; height ← c_int d;
  mret (mkQRect x y width height).

Definition convert_record (data : Json) : Res Entry :=
  x ← subscript data "x";
  y ← subscript data "y";
  width ← subscript data "width";
  height ← subscript data "height";
  geometry ← new_QRect x y width height;
  visible ← subscript data "visible";
  mret (mkEntry geometry visible).

(** The loop of [loadLayout]; the right-hand side of the assignment is
    evaluated before [int(column_id)]. *)
Fixpoint convert_items (items : list (string * Json))
         (converted_layout : list (Z * Entry)) : Res (list (Z * Entry)) :=
  match items with
  | [] => Ok converted_layout
  | (column_id, data) :: rest =>
      entry ← convert_record data;
      key ← int_of_str column_id;
      convert_items rest (dict_set key entry converted_layout)
  end.

(** [layout_data.items()] *)
Definition items_of (layout_data : Json) : Res (list (string * Json)) :=
  match layout_data with
  | JObj items => Ok items
  | _ => Raise (AttributeError "items")
  end.

Definition loadLayout (m : Manager) : option (list (Z * Entry)) * Manager :=
  if negb (path_set (config_path m)) then
    (None, logger INFO "No saved layout found, using default" None m)
  else
    match file m with
    | None => (None, logger INFO "No saved layout found, using default" None m)
    | Some Unreadable => (None, logger ERROR "Error loading layout: " (Some OSError) m)
    | Some Malformed => (None, logger ERROR "Error loading layout: " (Some JSONDecodeError) m)
    | Some (Document layout_data) =>
        match items ← items_of layout_data; convert_items items [] with
        | Ok converted_layout =>
            (Some converted_layout, logger INFO "Layout loaded successfully" None m)
        | Raise e => (None, logger ERROR "Error loading layout: " (Some e) m)
        end
    end.

(** ** getDefaultLayout, clearSavedLayout *)

Definition getDefaultLayout : list (Z * Entry) :=
  [ (1, mkEntry (mkQRect 0 0 200 600) (JBool true)) ].

(** [removable]: whether [os.remove(config_path)] succeeds; it raises
    when the directory does not allow it or the path is not a plain file. *)
Definition clearSavedLayout (removable : bool) (m : Manager) : bool * Manager :=
  if path_set (config_path m) then
    match file m with
    | Some _ =>
        if removable then
          (true, logger INFO "Saved layout cleared" None (remove_file m))
        else
          (false, logger ERROR "Error clearing saved layout: " (Some OSError) m)
    | None => (false, m)
    end
  else (false, m).

(** ** validateLayout *)

(** [validateLayout] is handed an arbitrary Python object. *)
Inductive PyVal :=
| PNone
| PBool (b : bool)
| PInt (z : Z)
| PFloat (literal : string)
| PStr (s : string)
| PList (elems : list PyVal)
| PDict (items : list (PyVal * PyVal))
| PQRect (r : QRect).

Fixpoint py_of_json (j : Json) : PyVal :=
  match j with
  | JNull => PNone
  | JBool b => PBool b
  | JInt z => PInt z
  | JFloat l => PFloat l
  | JStr s => PStr s
  | JArr elems => PList (map py_of_json elems)
  | JObj items => PDict (map (fun kv => (PStr (fst kv), py_of_json (snd kv))) items)
  end.

Definition py_of_entry (e : Entry) : PyVal :=
  PDict [ (PStr "geometry", PQRect (entry_geometry e));
          (PStr "visible", py_of_json (entry_visible e)) ].

Definition py_of_layout (layout : list (Z * Entry)) : PyVal :=
  PDict (map (fun ke => (PInt (fst ke), py_of_entry (snd ke))) layout).

(** [v == key] for a [str] key. *)
Definition is_str (key : string) (v : PyVal) : bool :=
  match v with
  | PStr s => String.eqb s key
  | _ => false
  end.

(** [isinstance(v, int)]: [bool] is a subclass of [int]. *)
Definition isinstance_int (v : PyVal) : bool :=
  match v with
  | PInt _ | PBool _ => true
  | _ => false
  end.

Definition isinstance_bool (v : PyVal) : bool :=
  match v with
  | PBool _ => true
  | _ => false
  end.

Definition isinstance_QRect (v : PyVal) : bool :=
  match v with
  | PQRect _ => true
  | _ => false
  end.

Definition is_substring (key s : string) : bool :=
  match String.index 0 key s with
  | Some _ => true
  | None => false
  end.

(** [key in data] *)
Definition contains (data : PyVal) (key : string) : Res bool :=
  match data with
  | PDict items => Ok (existsb (fun kv => is_str key (fst kv)) items)
  | PList elems => Ok (existsb (is_str key) elems)
  | PStr s => Ok (is_substring key s)
  | _ => Raise (TypeError "argument is not iterable")
  end.

(** [data[key]] *)
Definition py_subscript (data : PyVal) (key : string) : Res PyVal :=
  match data with
  | PDict items =>
      match find (fun kv => is_str key (fst kv)) items with
      | Some kv => Ok (snd kv)
      | None => Raise (KeyError key)
      end
  | PList _ => Raise (TypeError "list indices must be integers or slices, not str")
  | PStr _ => Raise (TypeError "string indices must be integers")
  | _ => Raise (TypeError "object is not subscriptable")
  end.

(** [all(key in data for key in required_keys)]; both membership tests
    raise or neither does, so the order in which the set is walked does not
    show. *)
Definition has_required_keys (data : PyVal) : Res bool :=
  contains data "geometry" ≫= fun has_geometry : bool =>
  if has_geometry then contains data "visible" else mret false.

(** The loop of [validateLayout]: [Ok false] is a [return False], [Raise] an
    exception on its way to the handler. *)
Fixpoint validate_items (items : list (PyVal * PyVal)) : Res bool :=
  match items with
  | [] => Ok true
  | (column_id, data) :: rest =>
      if negb (isinstance_int column_id) then Ok false else
      present ← has_required_keys data;
      if negb present then Ok false else
      geometry ← py_subscript data "geometry";
      if negb (isinstance_QRect geometry) then Ok false else
      visible ← py_subscript data "visible";
      if negb (isinstance_bool visible) then Ok false else
      validate_items rest
  end.

Definition validateLayout (layout_data : PyVal) (m : Manager) : bool * Manager :=
  match layout_data with
  | PDict items =>
      if (8 <? length items)%nat then (false, m)
      else
        match validate_items items with
        | Ok verdict => (verdict, m)
        | Raise e => (false, logger ERROR "Error validating layout: " (Some e) m)
        end
  | _ => (false, m)
  end.

(** ** Snapshots *)






(** The snapshot invariant in the words of the specification: at most 8
    entries, every entry with a geometry of non-negative dimensions and a
    boolean visibility (the keys are integers by their type). *)
Definition spec_entry_ok (e : Entry) : Prop :=
  0 <= rect_width (entry_geometry e) /\
  0 <= rect_height (entry_geometry e) /\
  exists b, entry_visible e = JBool b.

Definition spec_snapshot_invariant (layout : list (Z * Entry)) : Prop :=
  (length layout <= 8)%nat /\ Forall (fun ke => spec_entry_ok (snd ke)) layout.

(** The entry [{'geometry': r, 'visible': v}] as a Python object. *)
Definition py_entry (r : QRect) (v : PyVal) : PyVal :=
  PDict [ (PStr "geometry", PQRect r); (PStr "visible", v) ].

(** An entry of a mapping has a negative width or height. *)
Definition negative_dimension (data : PyVal) : Prop :=
  exists r, py_subscript data "geometry" = Ok (PQRect r) /\
            (rect_width r < 0 \/ rect_height r < 0).

(** The visibility field of an entry is not a boolean. *)
Definition visibility_not_bool (data : PyVal) : Prop :=
  forall b, py_subscript data "visible" <> Ok (PBool b).

(** ** Stores used as examples *)

(** The scenario of the specification: one column, id 1, at (0, 0), 200 by
    600, visible; saved by a manager whose file does not exist yet. *)
Definition scenario_snapshot : list (Z * Panel) :=
  [ (1, mkPanel (mkQRect 0 0 200 600) true) ].

Definition scenario_manager : Manager :=
  mkManager (Some "~/.local/share/krita/panel_manager/panel_layout.json") None true [].

(** Two columns that differ in every field, and a manager whose file holds
    something else before the save. *)
Definition two_column_snapshot : list (Z * Panel) :=
  [ (1, mkPanel (mkQRect 0 10 200 600) true);
    (2, mkPanel (mkQRect 200 15 150 580) false) ].


(** A file that parses, with one record whose width is negative and whose
    visibility is a string. *)
Definition odd_record_manager : Manager :=
  mkManager (Some "~/.local/share/krita/panel_manager/panel_layout.json")
    (Some (Document (JObj
       [ ("1", JObj [ ("x", JInt 0); ("y", JInt 0); ("width", JInt (-5));
                      ("height", JInt 10); ("visible", JStr "yes") ]) ])))
    true [].

Definition odd_layout : list (Z * Entry) :=
  [ (1, mkEntry (mkQRect 0 0 (-5) 10) (JStr "yes")) ].

(** A file that parses, with nine well-formed records. *)
Definition nine_record_manager : Manager :=
  mkManager (Some "~/.local/share/krita/panel_manager/panel_layout.json")
    (Some (Document (JObj
       (map (fun k => (str_of_int k, panel_record (mkPanel (mkQRect 0 0 200 600) true)))
            [1; 2; 3; 4; 5; 6; 7; 8; 9]))))
    true [].

End Layout.

(* ===================================================================== *)
(** * drag_drop_panel_widget.py                                           *)
(* ===================================================================== *)

Module Widget.
Import Py.

Record QPoint := mkQPoint { px : Z; py : Z }.
Record QSize := mkQSize { size_width : Z; size_height : Z }.

(** [Qt.MouseButton] flags. *)
Definition LeftButton : Z := 1.
Definition MiddleButton : Z := 4.

(** The style sheet of the widget: empty before [initUI], the literal of
    [applyStyle] (border [1px solid #3a3a3a]), or the literal of
    [highlightDropZone(True)] (border [2px solid #007acc]). *)
Inductive StyleSheet := NoStyle | PanelStyle | HighlightStyle.

Inductive Signal :=
| panelMoved (p : QPoint)
| panelResized (s : QSize).

Inductive DropAction := CopyAction | MoveAction | LinkAction.

(** A drag handed to the host by [drag.exec_]: the text of its mime data,
    the pixmap (the widget rendered at [rendered] size, its alpha channel
    multiplied by [alpha]/255), the hot spot and the supported action. *)
Record Drag := mkDrag {
  payload : string;
  rendered : QSize;
  alpha : Z;
  hotSpot : QPoint;
  action : DropAction }.

Record MouseEvent := mkMouseEvent { button : Z; buttons : Z; pos : QPoint }.
Record MimeData := mkMimeData { hasText : bool; text : string }.
Record DropEvent := mkDropEvent { mimeData : MimeData; drop_pos : QPoint }.
Record ResizeEvent := mkResizeEvent { size : QSize }.

(** The widget and what surrounds it while a handler runs.
    [dragStartPosition] is an attribute that exists only once a left press
    has set it; [accepted] is the accept flag of the event being delivered;
    [faults] scripts the toolkit calls to come: each call consumes one
    element and raises if it is [Some e]. *)
Record World := mkWorld {
  styleSheet : StyleSheet;
  dragStartPosition : option QPoint;
  widget_size : QSize;
  startDragDistance : Z;
  accepted : bool;
  emitted : list Signal;
  drags : list Drag;
  log : list LogRecord;
  faults : list (option Exn) }.

Definition M (A : Type) : Type := World -> Res A * World.

#[global] Instance M_ret : MRet M := fun A a w => (Ok a, w).
#[global] Instance M_bind : MBind M := fun A B k c w =>
  match c w with
  | (Ok a, w') => k a w'
  | (Raise e, w') => (Raise e, w')
  end.

Definition raise {A} (e : Exn) : M A := fun w => (Raise e, w).

Definition set_faults (fs : list (option Exn)) (w : World) : World :=
  mkWorld (styleSheet w) (dragStartPosition w) (widget_size w)
          (startDragDistance w) (accepted w) (emitted w) (drags w) (log w) fs.

(** One call into the toolkit. *)
Definition qt : M unit := fun w =>
  match faults w with
  | [] => (Ok tt, w)
  | None :: fs => (Ok tt, set_faults fs w)
  | Some e :: fs => (Raise e, set_faults fs w)
  end.

(** A toolkit call that reads, and one that writes. *)
Definition gets {A} (f : World -> A) : M A := fun w => (Ok (f w), w).
Definition modify (f : World -> World) : M unit := fun w => (Ok tt, f w).
Definition ask {A} (f : World -> A) : M A := _ ← qt; gets f.
Definition call (f : World -> World) : M unit := _ ← qt; modify f.

Definition setStyleSheet (s : StyleSheet) (w : World) : World :=
  mkWorld s (dragStartPosition w) (widget_size w)
          (startDragDistance w) (accepted w) (emitted w) (drags w) (log w) (faults w).

Definition set_dragStartPosition (p : QPoint) : M unit := fun w =>
  (Ok tt, mkWorld (styleSheet w) (Some p) (widget_size w)
          (startDragDistance w) (accepted w) (emitted w) (drags w) (log w) (faults w)).

Definition setAccepted (b : bool) (w : World) : World :=
  mkWorld (styleSheet w) (dragStartPosition w) (widget_size w)
          (startDragDistance w) b (emitted w) (drags w) (log w) (faults w).

Definition emit (s : Signal) (w : World) : World :=
  mkWorld (styleSheet w) (dragStartPosition w) (widget_size w)
          (startDragDistance w) (accepted w) (emitted w ++ [s]) (drags w) (log w) (faults w).

Definition exec_ (d : Drag) (w : World) : World :=
  mkWorld (styleSheet w) (dragStartPosition w) (widget_size w)
          (startDragDistance w) (accepted w) (emitted w) (drags w ++ [d]) (log w) (faults w).

Definition logger_error (msg : string) (e : Exn) (w : World) : World :=
  mkWorld (styleSheet w) (dragStartPosition w) (widget_size w)
          (startDragDistance w) (accepted w) (emitted w) (drags w)
          (log w ++ [mkLog ERROR msg (Some e)]) (faults w).

(** [try: body  except Exception as e: self.logger.error(f"<msg>{str(e)}")] *)
Definition try_except (body : M unit) (msg : string) : M unit := fun w =>
  match body w with
  | (Ok u, w') => (Ok u, w')
  | (Raise e, w') => (Ok tt, logger_error msg e w')
  end.

(** The names bound at module level: lines 1 to 4 of the file, and the class
    itself. *)
Definition module_globals : list string :=
  [ "QWidget"; "QVBoxLayout"; "QLabel"; "QSizeGrip";
    "Qt"; "QMimeData"; "pyqtSignal"; "QPoint"; "QSize";
    "QDrag"; "QPixmap"; "QPainter"; "QColor"; "QPen";
    "logging"; "DragDropPanelWidget" ].

(** Evaluation of a global name. *)
Definition global (globals : list string) (name : string) : M unit :=
  if bool_decide (name ∈ globals) then mret tt else raise (NameError name).

(** [self.dragStartPosition] *)
Definition get_dragStartPosition : M QPoint := fun w =>
  match dragStartPosition w with
  | Some p => (Ok p, w)
  | None => (Raise (AttributeError "dragStartPosition"), w)
  end.

Definition manhattanLength (p : QPoint) : Z := Z.abs (px p) + Z.abs (py p).
Definition qpoint_sub (p q : QPoint) : QPoint := mkQPoint (px p - px q) (py p - py q).

Definition applyStyle : M unit :=
  try_except (call (setStyleSheet PanelStyle)) "Error applying style: ".

Definition highlightDropZone (highlight : bool) : M unit :=
  try_except
    (if highlight then call (setStyleSheet HighlightStyle) else applyStyle)
    "Error highlighting drop zone: ".

Definition mousePressEvent_try (event : MouseEvent) : M unit :=
  b ← ask (fun _ => button event);
  if b =? LeftButton then
    p ← ask (fun _ => pos event);
    set_dragStartPosition p
  else mret tt.

Definition mousePressEvent (event : MouseEvent) : M unit :=
  try_except (mousePressEvent_try event) "Error in mouse press event: ".

Definition mouseMoveEvent_try (globals : list string) (event : MouseEvent) : M unit :=
  bs ← ask (fun _ => buttons event);
  if Z.land bs LeftButton =? 0 then mret tt else
  p ← ask (fun _ => pos event);
  origin ← get_dragStartPosition;
  distance ← ask (fun _ => manhattanLength (qpoint_sub p origin));
  _ ← global globals "QApplication";
  threshold ← ask startDragDistance;
  if distance <? threshold then mret tt else
  (* drag = QDrag(self); mimeData = QMimeData(); mimeData.setText("panel");
     drag.setMimeData(mimeData) *)
  _ ← global globals "QDrag"; _ ← qt;
  _ ← global globals "QMimeData"; _ ← qt;
  _ ← qt;
  _ ← qt;
  (* pixmap = QPixmap(self.size()); self.render(pixmap) *)
  _ ← global globals "QPixmap";
  sz ← ask widget_size; _ ← qt;
  _ ← qt;
  (* painter = QPainter(pixmap); DestinationIn; fillRect(.., QColor(0, 0, 0, 127));
     painter.end() *)
  _ ← global globals "QPainter"; _ ← qt;
  _ ← qt;
  _ ← global globals "QColor"; _ ← qt; _ ← qt;
  _ ← qt;
  (* drag.setPixmap(pixmap); drag.setHotSpot(event.pos()) *)
  _ ← qt;
  hot ← ask (fun _ => pos event); _ ← qt;
  (* dropAction = drag.exec_(Qt.MoveAction) *)
  call (exec_ (mkDrag "panel" sz 127 hot MoveAction)).

Definition mouseMoveEvent_with (globals : list string) (event : MouseEvent) : M unit :=
  try_except (mouseMoveEvent_try globals event) "Error in mouse move event: ".

Definition mouseMoveEvent : MouseEvent -> M unit := mouseMoveEvent_with module_globals.

(** [event.mimeData().hasText() and event.mimeData().text() == "panel"] *)
Definition is_panel_payload (event : DropEvent) : M bool :=
  _ ← qt;
  ask (fun _ => hasText (mimeData event)) ≫= fun has : bool =>
  if has then
    _ ← qt;
    t ← ask (fun _ => text (mimeData event));
    mret (String.eqb t "panel")
  else mret false.

Definition dragEnterEvent_try (event : DropEvent) : M unit :=
  is_panel_payload event ≫= fun is_panel : bool =>
  if is_panel then
    _ ← call (setAccepted true);
    highlightDropZone true
  else call (setAccepted false).

Definition dragEnterEvent (event : DropEvent) : M unit :=
  try_except (dragEnterEvent_try event) "Error in drag enter event: ".

Definition dragLeaveEvent_try : M unit :=
  _ ← highlightDropZone false;
  call (setAccepted true).

Definition dragLeaveEvent : M unit :=
  try_except dragLeaveEvent_try "Error in drag leave event: ".

Definition dropEvent_try (event : DropEvent) : M unit :=
  _ ← highlightDropZone false;
  is_panel_payload event ≫= fun is_panel : bool =>
  if is_panel then
    p ← ask (fun _ => drop_pos event);
    _ ← call (emit (panelMoved p));
    call (setAccepted true)
  else call (setAccepted false).

Definition dropEvent (event : DropEvent) : M unit :=
  try_except (dropEvent_try event) "Error in drop event: ".

Definition resizeEvent_try (event : ResizeEvent) : M unit :=
  _ ← qt;
  s ← ask (fun _ => size event);
  call (emit (panelResized s)).

Definition resizeEvent (event : ResizeEvent) : M unit :=
  try_except (resizeEvent_try event) "Error in resize event: ".

(** The events the toolkit delivers, and their delivery to the handlers. *)
Inductive Event :=
| MousePress (e : MouseEvent)
| MouseMove (e : MouseEvent)
| DragEnter (e : DropEvent)
| DragLeave
| Drop (e : DropEvent)
| Resize (e : ResizeEvent).

Definition handle (ev : Event) : M unit :=
  match ev with
  | MousePress e => mousePressEvent e
  | MouseMove e => mouseMoveEvent e
  | DragEnter e => dragEnterEvent e
  | DragLeave => dragLeaveEvent
  | Drop e => dropEvent e
  | Resize e => resizeEvent e
  end.

(** The handler body behind each event, and the text its handler logs. *)
Definition handler_try (ev : Event) : M unit :=
  match ev with
  | MousePress e => mousePressEvent_try e
  | MouseMove e => mouseMoveEvent_try module_globals e
  | DragEnter e => dragEnterEvent_try e
  | DragLeave => dragLeaveEvent_try
  | Drop e => dropEvent_try e
  | Resize e => resizeEvent_try e
  end.

Definition handler_message (ev : Event) : string :=
  match ev with
  | MousePress _ => "Error in mouse press event: "
  | MouseMove _ => "Error in mouse move event: "
  | DragEnter _ => "Error in drag enter event: "
  | DragLeave => "Error in drag leave event: "
  | Drop _ => "Error in drop event: "
  | Resize _ => "Error in resize event: "
  end.

(** Delivery of a sequence of events; an exception that leaves a handler
    ends it. *)
Fixpoint deliver (evs : list Event) : M unit :=
  match evs with
  | [] => mret tt
  | ev :: rest => _ ← handle ev; deliver rest
  end.

(** A widget after [__init__], with nothing going wrong in the toolkit. *)
Definition fresh_widget (sz : QSize) (threshold : Z) : World :=
  mkWorld PanelStyle None sz threshold false [] [] [] [].

(** A left press at (10, 10) on a new 200 x 600 widget, then a move to
    (60, 10) with the left button held; the platform threshold is 10. *)
Definition press_event : MouseEvent := mkMouseEvent LeftButton LeftButton (mkQPoint 10 10).
Definition move_event : MouseEvent := mkMouseEvent 0 LeftButton (mkQPoint 60 10).
Definition pressed_widget : World :=
  snd (mousePressEvent press_event (fresh_widget (mkQSize 200 600) 10)).

(** A widget left highlighted by an earlier drag-enter. *)
Definition highlighted_widget : World :=
  mkWorld HighlightStyle None (mkQSize 200 600) 10 true [] [] [] [].

(** ** Reasoning about handlers *)

(** A computation leaves an observation [f] of the world as it was. *)
Definition keeps {A B} (f : World -> B) (c : M A) : Prop :=
  forall w, f (snd (c w)) = f w.

(** What a computation answers when it returns. *)
Definition answers {A} (c : M A) (Q : A -> Prop) : Prop :=
  forall w a w', c w = (Ok a, w') -> Q a.

(** The next toolkit call does not fail. *)
Definition next_call_ok (w : World) : Prop :=
  match faults w with
  | Some _ :: _ => False
  | _ => True
  end.

End Widget.

(* ===================================================================== *)
(** * panel_manager_extension.py                                          *)
(* ===================================================================== *)

Module Extension.
Import Py.

(** A panel widget held in [panel_columns]: which object it is, and its
    geometry. *)
Record Column := mkColumn { ident : nat; geometry : Layout.QRect }.

(** What [Krita.instance().activeWindow()] finds. *)
Inductive ActiveWindow :=
| NoInstance                      (* [Krita.instance()] is [None] *)
| NoWindow                        (* no active window *)
| Window (width height : Z).      (* [qwindow().width()], [.height()] *)

(** The host: the active window, whether [DragDropPanelWidget(parent=...)]
    can be constructed, and the geometry a new widget starts with. *)
Record Host := mkHost {
  activeWindow : ActiveWindow;
  constructible : bool;
  initial_geometry : Layout.QRect }.

(** The extension object: the column mapping, the number of widgets created
    so far (the next widget is that object), the widgets handed to
    [deleteLater], and the logger. *)
Record Ext := mkExt {
  panel_columns : gmap Z Column;
  created : nat;
  deleted : list nat;
  log : list LogRecord }.

Definition logger (lv : Level) (msg : string) (e : option Exn) (st : Ext) : Ext :=
  mkExt (panel_columns st) (created st) (deleted st) (log st ++ [mkLog lv msg e]).

Definition set_columns (m : gmap Z Column) (st : Ext) : Ext :=
  mkExt m (created st) (deleted st) (log st).

(** [QWidget.setGeometry]: the size is kept within the minimum size set by
    [initUI] (100 x 100) and the toolkit's maximum. *)
Definition QWIDGETSIZE_MAX : Z := 16777215.

Definition bounded (v : Z) : Z := Z.max 100 (Z.min v QWIDGETSIZE_MAX).

Definition setGeometry (x y w h : Z) (c : Column) : Column :=
  mkColumn (ident c) (Layout.mkQRect x y (bounded w) (bounded h)).

Definition len (m : gmap Z Column) : Z := Z.of_nat (size m).

Definition updateColumnPositions (host : Host) (st : Ext) : Ext :=
  match activeWindow host with
  | NoInstance =>
      logger ERROR "Error updating column positions: "
             (Some (AttributeError "activeWindow")) st
  | NoWindow => st
  | Window screen_width height =>
      let column_width := screen_width `div` Z.max (len (panel_columns st)) 1 in
      set_columns
        (map_imap (fun idx column =>
                     let x_pos := (idx - 1) * column_width in
                     Some (setGeometry x_pos 0 column_width height column))
                  (panel_columns st))
        st
  end.

Definition addPanelColumn (host : Host) (st : Ext) : bool * Ext :=
  if 8 <=? len (panel_columns st) then
    (false, logger WARNING "Maximum number of panel columns (8) reached" None st)
  else
    let column_id := len (panel_columns st) + 1 in
    if constructible host then
      let new_column := mkColumn (created st) (initial_geometry host) in
      let st1 := mkExt (<[column_id := new_column]> (panel_columns st))
                       (S (created st)) (deleted st) (log st) in
      let st2 := updateColumnPositions host st1 in
      (true, logger INFO ("Added new panel column " +:+ str_of_int column_id) None st2)
    else
      (false, logger ERROR "Error adding panel column: "
                     (Some (TypeError "DragDropPanelWidget")) st).

(** [max(self.panel_columns.keys())] *)
Definition max_key (m : gmap Z Column) : option Z :=
  py_max (map fst (map_to_list m)).

Definition removePanelColumn (host : Host) (column_id : option Z) (st : Ext) : bool * Ext :=
  if bool_decide (panel_columns st = ∅) then
    (false, logger WARNING "No panel columns to remove" None st)
  else
    let target :=
      match column_id with
      | None => max_key (panel_columns st)
      | Some c => Some c
      end in
    match target with
    | None =>
        (false, logger ERROR "Error removing panel column: "
                       (Some (ValueError "max() arg is an empty sequence")) st)
    | Some column_id =>
        match panel_columns st !! column_id with
        | Some column =>
            let st1 := mkExt (delete column_id (panel_columns st))
                             (created st) (deleted st ++ [ident column]) (log st) in
            let st2 := updateColumnPositions host st1 in
            (true, logger INFO ("Removed panel column " +:+ str_of_int column_id) None st2)
        | None =>
            (false, logger WARNING ("Panel column " +:+ str_of_int column_id +:+ " not found")
                           None st)
        end
    end.

(** The extension after [__init__]. *)
Definition init : Ext := mkExt ∅ 0 [] [].

(** [n] calls of [addPanelColumn] in a row, with their results. *)
Fixpoint add_columns (n : nat) (host : Host) (st : Ext) : list bool * Ext :=
  match n with
  | O => ([], st)
  | S n' =>
      let '(r, st1) := addPanelColumn host st in
      let '(rs, st2) := add_columns n' host st1 in
      (r :: rs, st2)
  end.

(** A host with an active window of 1600 x 900 in which widgets can be
    built, the extension with eight columns, the one with three, and the one
    left with the ids 1 and 3 after column 2 of three is removed. *)
Definition host_1600 : Host :=
  mkHost (Window 1600 900) true (Layout.mkQRect 0 0 100 100).

Definition eight_columns : Ext := snd (add_columns 8 host_1600 init).

Definition three_columns : Ext := snd (add_columns 3 host_1600 init).

Definition columns_1_3 : Ext := snd (removePanelColumn host_1600 (Some 2) three_columns).

(** ** createDefaultLayout, resetLayout, canvasChanged *)

(** [createDefaultLayout]: one call of [addPanelColumn], its result dropped. *)
Definition createDefaultLayout (host : Host) (st : Ext) : Ext :=
  snd (addPanelColumn host st).

(** [resetLayout].  [keys] is [list(self.panel_columns.keys())]: the ids of
    the mapping in insertion order, which the finite map does not record
    and is therefore handed in. *)
Definition resetLayout (host : Host) (keys : list Z) (st : Ext) : Ext :=
  let st1 :=
    foldl (fun s column_id => snd (removePanelColumn host (Some column_id) s))
          st keys in
  logger INFO "Layout reset to default" None (createDefaultLayout host st1).

(** [canvasChanged(canvas)]; [canvas] is the truth value of the argument. *)
Definition canvasChanged (host : Host) (canvas : bool) (st : Ext) : Ext :=
  if canvas then updateColumnPositions host st else st.

(** The calls that reach the extension, each in the host as it is at that
    moment.  A [CallReset] carries the list of keys it walks; any list is
    allowed here, the lists the code can build among them. *)
Inductive Call :=
| CallAdd
| CallRemove (column_id : option Z)
| CallReset (keys : list Z)
| CallCanvasChanged (canvas : bool).

Definition run_call (host : Host) (c : Call) (st : Ext) : Ext :=
  match c with
  | CallAdd => snd (addPanelColumn host st)
  | CallRemove column_id => snd (removePanelColumn host column_id st)
  | CallReset keys => resetLayout host keys st
  | CallCanvasChanged canvas => canvasChanged host canvas st
  end.

Definition run_calls (calls : list (Host * Call)) (st : Ext) : Ext :=
  foldl (fun s hc => run_call (fst hc) (snd hc) s) st calls.

(** Which widget object sits under an id. *)
Definition ident_at (st : Ext) (k : Z) : option nat :=
  ident <$> (panel_columns st !! k).

(** The ids of the mapping are exactly 1..n. *)
Definition ids_upto (n : nat) (st : Ext) : Prop :=
  dom (panel_columns st) = list_to_set (seqZ 1 (Z.of_nat n)).

(** The widgets of the mapping are distinct objects, created by the
    extension, and none of them has been handed to [deleteLater]. *)
Definition objects_ok (st : Ext) : Prop :=
  (forall k i, ident_at st k = Some i -> (i < created st)%nat /\ i ∉ deleted st) /\
  (forall k1 k2 i, ident_at st k1 = Some i -> ident_at st k2 = Some i -> k1 = k2) /\
  (forall i, i ∈ deleted st -> (i < created st)%nat).

(** A call that only adds a column, removes the last one, or reacts to a
    canvas change. *)
Definition plain_call (c : Call) : Prop :=
  match c with
  | CallAdd | CallRemove None | CallCanvasChanged _ => True
  | _ => False
  end.

End Extension.

(* ===================================================================== *)
(** * Facts about the Python primitives                                   *)
(* ===================================================================== *)

Section PyFacts.
Import Py.













Lemma str_int_ok_Ok (z : Z) : str_int_ok z -> str_int z = Ok (str_of_int z).
Proof.
  unfold str_int_ok, str_int. intros H. apply Z.ltb_ge in H. rewrite H. reflexivity.
Qed.

Lemma str_int_Ok_inv (z : Z) (s : string) :
  str_int z = Ok s -> s = str_of_int z /\ str_int_ok z.
Proof.
  unfold str_int_ok, str_int.
  destruct (MAX_STR_DIGITS <? digit_count (list_ascii_of_string (str_of_int z))) eqn:H;
    [discriminate|].
  intros [= <-]. apply Z.ltb_ge in H. auto.
Qed.



(** Writing the items of a dict one by one into an empty dict rebuilds it. *)
Lemma dict_set_fresh {K V} `{EqDecision K} (k : K) (v : V) (d : list (K * V)) :
  k ∉ map fst d -> dict_set k v d = d ++ [(k, v)].
Proof.
  induction d as [|[k' v'] d IH]; simpl; intros Hk; [reflexivity|].
  apply not_elem_of_cons in Hk as [Hne Hk].
  destruct (decide (k = k')); [congruence|]. rewrite IH; auto.
Qed.

Lemma dict_set_rebuild {K V A} `{EqDecision K}
      (key : A -> K) (val : A -> V) (l : list A) (d : list (K * V)) :
  NoDup (map fst d ++ map key l) ->
  foldl (fun acc a => dict_set (key a) (val a) acc) d l
  = d ++ map (fun a => (key a, val a)) l.
Proof.
  revert d. induction l as [|a l IH]; intros d Hnd; simpl.
  - rewrite app_nil_r. reflexivity.
  - rewrite dict_set_fresh.
    + rewrite IH.
      * rewrite <- app_assoc. reflexivity.
      * rewrite map_app. simpl. rewrite <- app_assoc. exact Hnd.
    + apply NoDup_app in Hnd as (_ & Hd & _).
      intros Hin. apply (Hd _ Hin). simpl. left.
Qed.

Lemma foldl_pointwise {A B} (f g : A -> B -> A) (l : list B) (a : A) :
  (forall x y, f x y = g x y) -> foldl f a l = foldl g a l.
Proof.
  intros Hfg. revert a. induction l as [|b l IH]; intros a; simpl; [reflexivity|].
  rewrite Hfg. apply IH.
Qed.

End PyFacts.

(* ===================================================================== *)
(** * The layout manager                                                  *)
(* ===================================================================== *)

Section LayoutFacts.
Import Py Layout.




(** The loop of [saveLayout] fails exactly when [str] rejects an id. *)
Lemma build_layout_data_Ok_iff (panel_columns : list (Z * Panel)) :
  forall acc : list (string * Json),
  (exists layout_data, build_layout_data panel_columns acc = Ok layout_data) <->
  Forall (fun kp => str_int_ok (fst kp)) panel_columns.
Proof.
  induction panel_columns as [|[k p] l IH]; intros acc; simpl.
  - split; [constructor | eauto].
  - destruct (str_int k) as [key|e] eqn:Hk; simpl.
    + apply str_int_Ok_inv in Hk as [-> Hk]. rewrite IH. split.
      * intros Hl. constructor; assumption.
      * intros Hall. inversion Hall; assumption.
    + split; [intros [? ?]; discriminate|].
      intros Hall. inversion Hall as [|? ? Hok _]; subst. simpl in Hok.
      rewrite (str_int_ok_Ok k Hok) in Hk. discriminate.
Qed.


End LayoutFacts.

Section LoadFacts.
Import Py Layout.

Lemma dict_set_keys {K V} `{EqDecision K} (k k' : K) (v : V) (d : list (K * V)) :
  k' ∈ map fst (dict_set k v d) <-> k' = k \/ k' ∈ map fst d.
Proof.
  induction d as [|[k0 v0] d IH]; simpl.
  - rewrite list_elem_of_singleton.
    split; [auto | intros [Heq|Hin]; [exact Heq | inversion Hin]].
  - destruct (decide (k = k0)) as [->|Hne]; simpl.
    + rewrite !elem_of_cons. tauto.
    + rewrite !elem_of_cons, IH. tauto.
Qed.

Lemma dict_set_NoDup {K V} `{EqDecision K} (k : K) (v : V) (d : list (K * V)) :
  NoDup (map fst d) -> NoDup (map fst (dict_set k v d)).
Proof.
  induction d as [|[k0 v0] d IH]; simpl; intros Hnd.
  - apply NoDup_singleton.
  - apply NoDup_cons in Hnd as [Hk0 Hnd].
    destruct (decide (k = k0)) as [->|Hne]; simpl; apply NoDup_cons.
    + split; assumption.
    + split; [|auto]. rewrite dict_set_keys. intros [->|Hin]; auto.
Qed.

Lemma dict_set_items {K V} `{EqDecision K} (k k' : K) (v v' : V) (d : list (K * V)) :
  (k', v') ∈ dict_set k v d -> (k' = k /\ v' = v) \/ (k', v') ∈ d.
Proof.
  induction d as [|[k0 v0] d IH]; simpl.
  - rewrite list_elem_of_singleton. intros [= -> ->]. auto.
  - destruct (decide (k = k0)) as [->|Hne]; rewrite !elem_of_cons.
    + intros [[= -> ->]|Hin]; auto.
    + intros [Heq|Hin]; auto. destruct (IH Hin); auto.
Qed.

(** What a successful run of the loop of [loadLayout] has done. *)
Lemma convert_items_complete (items : list (string * Json)) :
  forall (acc layout : list (Z * Entry)),
  convert_items items acc = Ok layout ->
  (NoDup (map fst acc) -> NoDup (map fst layout)) /\
  (forall k, k ∈ map fst acc -> k ∈ map fst layout) /\
  (forall column_id data, (column_id, data) ∈ items ->
     exists k e, int_of_str column_id = Ok k /\ convert_record data = Ok e /\
                 k ∈ map fst layout) /\
  (forall k e, (k, e) ∈ layout ->
     (k, e) ∈ acc \/
     exists column_id data, (column_id, data) ∈ items /\
       int_of_str column_id = Ok k /\ convert_record data = Ok e).
Proof.
  induction items as [|[cid data] rest IH]; intros acc layout Hrun; simpl in Hrun.
  - injection Hrun as <-. repeat split; auto.
    intros ? ? Hin. inversion Hin.
  - destruct (convert_record data) as [entry|] eqn:Hc; [|discriminate].
    destruct (int_of_str cid) as [key|] eqn:Hk; [|discriminate].
    simpl in Hrun. apply IH in Hrun as (Hnd & Hkeys & Hitems & Hback).
    repeat split.
    + intros Ha. apply Hnd, dict_set_NoDup, Ha.
    + intros k Hin. apply Hkeys, dict_set_keys. auto.
    + intros column_id d Hin. apply elem_of_cons in Hin as [[= -> ->]|Hin].
      * exists key, entry. repeat split; auto.
        apply Hkeys, dict_set_keys. auto.
      * apply Hitems, Hin.
    + intros k e Hin. destruct (Hback k e Hin) as [Hacc|(c & d & Hc' & Hk' & He')].
      * apply dict_set_items in Hacc as [[-> ->]|Hacc]; auto.
        right. exists cid, data. repeat split; auto. left.
      * right. exists c, d. repeat split; auto. right. exact Hc'.
Qed.

Lemma loadLayout_Some (m : Manager) (layout : list (Z * Entry)) :
  fst (loadLayout m) = Some layout ->
  path_set (config_path m) = true /\
  exists items, file m = Some (Document (JObj items)) /\
                convert_items items [] = Ok layout.
Proof.
  unfold loadLayout.
  destruct (path_set (config_path m)); simpl; [|discriminate].
  destruct (file m) as [[| |doc]|]; simpl; try discriminate.
  destruct doc; simpl; try discriminate.
  destruct (convert_items items []) as [l|] eqn:Hc; simpl; [|discriminate].
  intros [= ->]. split; [reflexivity|]. exists items. auto.
Qed.

Lemma dict_get_set {K V} `{EqDecision K} (k k' : K) (v : V) (d : list (K * V)) :
  dict_get k (dict_set k' v d) = if decide (k = k') then Some v else dict_get k d.
Proof.
  induction d as [|[k0 v0] d IH]; simpl.
  - destruct (decide (k = k')); reflexivity.
  - destruct (decide (k' = k0)) as [->|Hne]; simpl.
    + destruct (decide (k = k0)); reflexivity.
    + destruct (decide (k = k0)) as [->|Hne'].
      * destruct (decide (k0 = k')); [congruence | reflexivity].
      * exact IH.
Qed.

Lemma dict_get_elem {K V} `{EqDecision K} (k : K) (v : V) (d : list (K * V)) :
  NoDup (map fst d) -> (k, v) ∈ d -> dict_get k d = Some v.
Proof.
  induction d as [|[k0 v0] d IH]; simpl; intros Hnd Hin; [inversion Hin|].
  apply NoDup_cons in Hnd as [Hk0 Hnd].
  apply elem_of_cons in Hin as [[= -> ->]|Hin].
  - destruct (decide (k0 = k0)); [reflexivity | congruence].
  - destruct (decide (k = k0)) as [->|Hne]; [|apply IH; assumption].
    exfalso. apply Hk0. apply list_elem_of_fmap. exists (k0, v). auto.
Qed.

Lemma dict_set_length {K V} `{EqDecision K} (k : K) (v : V) (d : list (K * V)) :
  (length (dict_set k v d) <= S (length d))%nat.
Proof.
  induction d as [|[k0 v0] d IH]; simpl; [lia|].
  destruct (decide (k = k0)); simpl; lia.
Qed.

Lemma convert_items_length (items : list (string * Json)) :
  forall acc layout,
  convert_items items acc = Ok layout ->
  (length layout <= length acc + length items)%nat.
Proof.
  induction items as [|[cid data] rest IH]; intros acc layout Hrun; simpl in Hrun.
  - injection Hrun as <-. lia.
  - destruct (convert_record data) as [entry|]; [|discriminate].
    destruct (int_of_str cid) as [key|]; [|discriminate].
    simpl in Hrun. apply IH in Hrun.
    pose proof (dict_set_length key entry acc). simpl. lia.
Qed.

(** Records whose keys are not [k] leave the entry under [k] alone. *)
Lemma convert_items_get_other (k : Z) (items : list (string * Json)) :
  forall acc layout,
  convert_items items acc = Ok layout ->
  (forall column_id data, (column_id, data) ∈ items -> int_of_str column_id <> Ok k) ->
  dict_get k layout = dict_get k acc.
Proof.
  induction items as [|[cid data] rest IH]; intros acc layout Hrun Hother; simpl in Hrun.
  - injection Hrun as <-. reflexivity.
  - destruct (convert_record data) as [entry|]; [|discriminate].
    destruct (int_of_str cid) as [key|] eqn:Hk; [|discriminate].
    simpl in Hrun. rewrite (IH _ _ Hrun).
    + rewrite dict_get_set. destruct (decide (k = key)) as [->|]; [|reflexivity].
      exfalso. apply (Hother cid data); [left | exact Hk].
    + intros c d Hin. apply (Hother c d). right. exact Hin.
Qed.

Lemma convert_items_get_last (k : Z) (pre post : list (string * Json))
      (column_id : string) (data : Json) :
  forall acc layout,
  convert_items (pre ++ (column_id, data) :: post) acc = Ok layout ->
  int_of_str column_id = Ok k ->
  (forall c d, (c, d) ∈ post -> int_of_str c <> Ok k) ->
  exists e, convert_record data = Ok e /\ dict_get k layout = Some e.
Proof.
  induction pre as [|[c0 d0] pre IH]; intros acc layout Hrun Hk Hpost; simpl in Hrun.
  - destruct (convert_record data) as [entry|]; [|discriminate].
    rewrite Hk in Hrun. simpl in Hrun.
    exists entry. split; [reflexivity|].
    rewrite (convert_items_get_other k post _ _ Hrun Hpost).
    rewrite dict_get_set. destruct (decide (k = k)); congruence.
  - destruct (convert_record d0) as [e0|]; [|discriminate].
    destruct (int_of_str c0) as [k0|]; [|discriminate].
    simpl in Hrun. eapply IH; eauto.
Qed.

End LoadFacts.

(* ===================================================================== *)
(** * Properties of the specification                                     *)
(* ===================================================================== *)

Section LayoutClaims.
Import Py Layout.





End LayoutClaims.

Section LoadClaims.
Import Py Layout.

(** C6, as stated, fails: from a file that parses, [loadLayout] returns the
    converted mapping without checking it.  Here the mapping it returns has
    a negative width and a visibility that is not a boolean, so it breaks the
    snapshot invariant, and [validateLayout] rejects it. *)
Lemma loadLayout_returns_invalid_mapping :
  fst (loadLayout odd_record_manager) = Some odd_layout /\
  ~ spec_snapshot_invariant odd_layout /\
  fst (validateLayout (py_of_layout odd_layout) odd_record_manager) = false.
Proof.
  split; [reflexivity|]. split; [|reflexivity].
  intros [_ Hall]. inversion Hall as [|? ? (Hw & _) _]; subst.
  simpl in Hw. lia.
Qed.

(** Nor is the limit of 8 entries enforced on load. *)
Lemma loadLayout_returns_nine_columns :
  exists layout, fst (loadLayout nine_record_manager) = Some layout /\
                 length layout = 9%nat /\
                 ~ spec_snapshot_invariant layout.
Proof.
  eexists. split; [vm_compute; reflexivity|]. split; [reflexivity|].
  intros [Hlen _]. simpl in Hlen. lia.
Qed.

(** C6, amended.  For every state of the store [loadLayout] returns without
    raising, and it returns either [None] or a complete mapping: then the
    file exists and holds a JSON object; every record of the object
    converts ([int] of its key, a [QRect] from its x, y, width, height, its
    visible field) and its integer key is in the mapping; the keys of the
    mapping are distinct integers and every entry is the conversion of a
    record; and under an integer key the mapping holds the conversion of
    the last record of the file whose key reads as that integer, so records
    whose keys read as the same integer are merged into one entry and the
    mapping has at most as many entries as the file has records.  A missing
    file and any read, parse or conversion fault therefore give [None],
    never a mapping built from part of the records. *)
Theorem loadLayout_none_or_complete (m : Manager) :
  fst (loadLayout m) = None \/
  exists items layout,
    fst (loadLayout m) = Some layout /\
    path_set (config_path m) = true /\
    file m = Some (Document (JObj items)) /\
    NoDup (map fst layout) /\
    (length layout <= length items)%nat /\
    (forall column_id data, (column_id, data) ∈ items ->
       exists k e, int_of_str column_id = Ok k /\ convert_record data = Ok e /\
                   k ∈ map fst layout) /\
    (forall k e, (k, e) ∈ layout ->
       dict_get k layout = Some e /\
       exists column_id data, (column_id, data) ∈ items /\
         int_of_str column_id = Ok k /\ convert_record data = Ok e) /\
    (forall pre column_id data post k,
       items = pre ++ (column_id, data) :: post ->
       int_of_str column_id = Ok k ->
       (forall c d, (c, d) ∈ post -> int_of_str c <> Ok k) ->
       exists e, convert_record data = Ok e /\ dict_get k layout = Some e).
Proof.
  destruct (fst (loadLayout m)) as [layout|] eqn:Hload; [right|left; reflexivity].
  destruct (loadLayout_Some m layout Hload) as (Hpath & items & Hfile & Hrun).
  pose proof (convert_items_length items [] layout Hrun) as Hlen.
  pose proof (convert_items_complete items [] layout Hrun) as (Hnd & _ & Hitems & Hback).
  assert (Hnd' : NoDup (map fst layout)) by (apply Hnd; constructor).
  exists items, layout.
  split; [reflexivity|]. split; [exact Hpath|]. split; [exact Hfile|].
  split; [exact Hnd'|]. split; [exact Hlen|]. split; [exact Hitems|]. split.
  - intros k e Hin. split; [apply dict_get_elem; assumption|].
    destruct (Hback k e Hin) as [Hnil|H]; [inversion Hnil | exact H].
  - intros pre column_id data post k -> Hk Hpost.
    apply (convert_items_get_last k pre post column_id data [] layout Hrun Hk Hpost).
Qed.

(** The faults one by one: no path, no file, a file that cannot be read or
    parsed, a document that is not an object, a record that does not
    convert. *)
Lemma loadLayout_faults (m : Manager) :
  (path_set (config_path m) = false -> fst (loadLayout m) = None) /\
  (file m = None -> fst (loadLayout m) = None) /\
  (file m = Some Unreadable -> fst (loadLayout m) = None) /\
  (file m = Some Malformed -> fst (loadLayout m) = None) /\
  (forall doc, file m = Some (Document doc) ->
     (forall items, doc <> JObj items) -> fst (loadLayout m) = None) /\
  (forall items column_id data, file m = Some (Document (JObj items)) ->
     (column_id, data) ∈ items ->
     (forall e, convert_record data <> Ok e) \/ (forall k, int_of_str column_id <> Ok k) ->
     fst (loadLayout m) = None).
Proof.
  destruct (fst (loadLayout m)) as [layout|] eqn:Hload;
    [|repeat split; intros; reflexivity].
  destruct (loadLayout_Some m layout Hload) as (Hpath & items & Hfile & Hrun).
  apply convert_items_complete in Hrun as (_ & _ & Hitems & _).
  split; [intros Hp; congruence|].
  split; [intros Hf; congruence|].
  split; [intros Hf; congruence|].
  split; [intros Hf; congruence|].
  split.
  - intros doc Hdoc Hobj. exfalso. apply (Hobj items). congruence.
  - intros items' column_id data Hdoc Hin Hbad. exfalso.
    assert (items' = items) as -> by congruence.
    destruct (Hitems _ _ Hin) as (k & e & Hk & He & _).
    destruct Hbad as [Hbad|Hbad]; [apply (Hbad e He) | apply (Hbad k Hk)].
Qed.

End LoadClaims.

Section ValidateClaims.
Import Py Layout.

Lemma validate_items_true (items : list (PyVal * PyVal)) :
  validate_items items = Ok true ->
  forall column_id data, (column_id, data) ∈ items ->
    isinstance_int column_id = true /\
    (exists r, py_subscript data "geometry" = Ok (PQRect r)) /\
    (exists b, py_subscript data "visible" = Ok (PBool b)).
Proof.
  induction items as [|[cid d] rest IH]; simpl; intros Hv column_id data Hin.
  - inversion Hin.
  - destruct (isinstance_int cid) eqn:Hint; simpl in Hv; [|discriminate].
    destruct (has_required_keys d) as [[|]|]; simpl in Hv; try discriminate.
    destruct (py_subscript d "geometry") as [g|] eqn:Hg; simpl in Hv; [|discriminate].
    destruct (isinstance_QRect g) eqn:Hq; simpl in Hv; [|discriminate].
    destruct (py_subscript d "visible") as [v|] eqn:Hvis; simpl in Hv; [|discriminate].
    destruct (isinstance_bool v) eqn:Hb; simpl in Hv; [|discriminate].
    apply elem_of_cons in Hin as [[= -> ->]|Hin]; [|apply IH; assumption].
    split; [exact Hint|]. split.
    + destruct g; try discriminate. rewrite Hg. eauto.
    + destruct v; try discriminate. rewrite Hvis. eauto.
Qed.

Lemma validate_items_typed (layout : list (Z * (QRect * bool))) :
  validate_items
    (map (fun e => (PInt (fst e), py_entry (fst (snd e)) (PBool (snd (snd e))))) layout)
  = Ok true.
Proof.
  induction layout as [|[k [r b]] l IH]; simpl; [reflexivity | exact IH].
Qed.

(** The width and height of the rectangles are not looked at: a mapping of
    at most 8 integer ids to entries with a [QRect] and a [bool] is accepted
    whatever the rectangles are. *)
Lemma validateLayout_ignores_dimensions (layout : list (Z * (QRect * bool))) (m : Manager) :
  (length layout <= 8)%nat ->
  validateLayout
    (PDict (map (fun e => (PInt (fst e), py_entry (fst (snd e)) (PBool (snd (snd e)))))
                layout)) m
  = (true, m).
Proof.
  intros Hlen. unfold validateLayout. rewrite length_map.
  destruct (8 <? length layout)%nat eqn:Hlt.
  - apply Nat.ltb_lt in Hlt. lia.
  - rewrite validate_items_typed. reflexivity.
Qed.

(** C2, as stated, fails in its last part: an entry whose rectangle has a
    negative width is accepted. *)
Lemma validateLayout_accepts_negative_width :
  negative_dimension (py_entry (mkQRect 0 0 (-5) 10) (PBool true)) /\
  validateLayout (PDict [ (PInt 1, py_entry (mkQRect 0 0 (-5) 10) (PBool true)) ])
                 scenario_manager
  = (true, scenario_manager).
Proof.
  split; [|reflexivity].
  exists (mkQRect 0 0 (-5) 10). split; [reflexivity|]. left. simpl. lia.
Qed.

(** C2, amended.  [validateLayout] returns [False] for every mapping that
    has more than 8 entries and for every mapping that contains an entry
    whose visibility field is not a boolean; it only reads its argument, and
    it leaves the store as it is. *)
Theorem validateLayout_rejects (items : list (PyVal * PyVal)) (m : Manager) :
  (8 < length items)%nat \/
  (exists column_id data, (column_id, data) ∈ items /\ visibility_not_bool data) ->
  fst (validateLayout (PDict items) m) = false /\
  file (snd (validateLayout (PDict items) m)) = file m.
Proof.
  intros Hbad. unfold validateLayout.
  destruct (8 <? length items)%nat eqn:Hlt; [split; reflexivity|].
  destruct Hbad as [Hlen|(cid & data & Hin & Hvis)].
  { apply Nat.ltb_ge in Hlt. lia. }
  destruct (validate_items items) as [[|]|] eqn:Hv; simpl; auto.
  exfalso. destruct (validate_items_true items Hv cid data Hin) as (_ & _ & b & Hb).
  exact (Hvis b Hb).
Qed.

Lemma validateLayout_rejects_witness :
  (exists column_id data,
      (column_id, data) ∈ [ (PInt 1, py_entry (mkQRect 0 0 200 600) (PStr "yes")) ] /\
      visibility_not_bool data) /\
  fst (validateLayout (PDict [ (PInt 1, py_entry (mkQRect 0 0 200 600) (PStr "yes")) ])
                      scenario_manager) = false.
Proof.
  assert (H : exists column_id data,
      (column_id, data) ∈ [ (PInt 1, py_entry (mkQRect 0 0 200 600) (PStr "yes")) ] /\
      visibility_not_bool data).
  { exists (PInt 1), (py_entry (mkQRect 0 0 200 600) (PStr "yes")).
    split; [left|]. intros b Hb. discriminate Hb. }
  split; [exact H|].
  exact (proj1 (validateLayout_rejects _ scenario_manager (or_intror H))).
Defined.

End ValidateClaims.

(* ===================================================================== *)
(** * The panel widget                                                    *)
(* ===================================================================== *)

Section WidgetFacts.
Import Py Widget.

Lemma try_except_returns (body : M unit) (msg : string) (w : World) :
  fst (try_except body msg w) = Ok tt.
Proof.
  unfold try_except. destruct (body w) as [[[]|e] w']; reflexivity.
Qed.


Lemma handle_try_except (ev : Event) :
  handle ev = try_except (handler_try ev) (handler_message ev).
Proof. destruct ev; reflexivity. Qed.


Lemma keeps_ret {A B} (f : World -> B) (a : A) : keeps f (mret a).
Proof. intros w. reflexivity. Qed.

Lemma keeps_raise {A B} (f : World -> B) (e : Exn) : keeps f (@raise A e).
Proof. intros w. reflexivity. Qed.

Lemma keeps_bind {A B C} (f : World -> C) (c : M A) (k : A -> M B) :
  keeps f c -> (forall a, keeps f (k a)) -> keeps f (c ≫= k).
Proof.
  intros Hc Hk w. unfold mbind, M_bind. specialize (Hc w).
  destruct (c w) as [[a|e] w']; simpl in *; [|exact Hc].
  rewrite Hk. exact Hc.
Qed.

Lemma keeps_raise_bind {A B C} (f : World -> C) (e : Exn) (k : A -> M B) :
  keeps f (raise e ≫= k).
Proof. intros w. reflexivity. Qed.

Lemma keeps_try_except {B} (f : World -> B) (body : M unit) (msg : string) :
  (forall e w, f (logger_error msg e w) = f w) ->
  keeps f body -> keeps f (try_except body msg).
Proof.
  intros Hlog Hb w. unfold try_except. specialize (Hb w).
  destruct (body w) as [[u|e] w']; simpl in *; [exact Hb|].
  rewrite Hlog. exact Hb.
Qed.

Lemma keeps_qt {B} (f : World -> B) :
  (forall fs w, f (set_faults fs w) = f w) -> keeps f qt.
Proof.
  intros Hf w. unfold qt. destruct (faults w) as [|[e|] fs]; simpl; auto.
Qed.

Lemma keeps_ask {A B} (f : World -> B) (g : World -> A) :
  (forall fs w, f (set_faults fs w) = f w) -> keeps f (ask g).
Proof.
  intros Hf. unfold ask. apply keeps_bind; [apply keeps_qt, Hf|].
  intros _ w. reflexivity.
Qed.

Lemma keeps_call {B} (f : World -> B) (g : World -> World) :
  (forall fs w, f (set_faults fs w) = f w) ->
  (forall w, f (g w) = f w) -> keeps f (call g).
Proof.
  intros Hf Hg. unfold call. apply keeps_bind; [apply keeps_qt, Hf|].
  intros _ w. apply Hg.
Qed.

Lemma keeps_get_dragStartPosition {B} (f : World -> B) :
  keeps f get_dragStartPosition.
Proof.
  intros w. unfold get_dragStartPosition.
  destruct (dragStartPosition w); reflexivity.
Qed.

Lemma keeps_is_panel_payload {B} (f : World -> B) (ev : DropEvent) :
  (forall fs w, f (set_faults fs w) = f w) -> keeps f (is_panel_payload ev).
Proof.
  intros Hf. unfold is_panel_payload.
  apply keeps_bind; [apply keeps_qt, Hf|]. intros _.
  apply keeps_bind; [apply keeps_ask, Hf|]. intros [|]; [|apply keeps_ret].
  apply keeps_bind; [apply keeps_qt, Hf|]. intros _.
  apply keeps_bind; [apply keeps_ask, Hf|]. intros t. apply keeps_ret.
Qed.

(** No move event makes the widget begin a drag: the name [QApplication] is
    not bound in the module, so the comparison with the drag threshold
    raises before the drag is built. *)
Lemma mouseMoveEvent_keeps_drags (ev : MouseEvent) : keeps drags (mouseMoveEvent ev).
Proof.
  apply keeps_try_except; [reflexivity|].
  unfold mouseMoveEvent_try.
  apply keeps_bind; [apply keeps_ask; reflexivity|]. intros bs.
  destruct (Z.land bs LeftButton =? 0); [apply keeps_ret|].
  apply keeps_bind; [apply keeps_ask; reflexivity|]. intros p.
  apply keeps_bind; [apply keeps_get_dragStartPosition|]. intros origin.
  apply keeps_bind; [apply keeps_ask; reflexivity|]. intros distance.
  change (global module_globals "QApplication") with (@raise unit (NameError "QApplication")).
  apply keeps_raise_bind.
Qed.

Lemma keeps_bind_answer {A B C} (f : World -> C) (c : M A) (Q : A -> Prop) (k : A -> M B) :
  keeps f c -> answers c Q -> (forall a, Q a -> keeps f (k a)) -> keeps f (c ≫= k).
Proof.
  intros Hc HQ Hk w. unfold mbind, M_bind. specialize (Hc w). specialize (HQ w).
  destruct (c w) as [[a|e] w']; simpl in *; [|exact Hc].
  rewrite Hk; [exact Hc|]. eapply HQ. reflexivity.
Qed.

Lemma answers_ret {A} (a : A) (Q : A -> Prop) : Q a -> answers (mret a) Q.
Proof. intros HQ w a' w' [= <- _]. exact HQ. Qed.

Lemma answers_bind {A B} (c : M A) (k : A -> M B) (P : A -> Prop) (Q : B -> Prop) :
  answers c P -> (forall a, P a -> answers (k a) Q) -> answers (c ≫= k) Q.
Proof.
  intros Hc Hk w b w'. unfold mbind, M_bind. specialize (Hc w).
  destruct (c w) as [[a|e] w1]; [|discriminate].
  apply Hk. eapply Hc. reflexivity.
Qed.

Lemma answers_any {A} (c : M A) : answers c (fun _ => True).
Proof. intros w a w' _. exact I. Qed.

Lemma answers_ask {A} (g : World -> A) (Q : A -> Prop) :
  (forall w, Q (g w)) -> answers (ask g) Q.
Proof.
  intros HQ. unfold ask. eapply answers_bind; [apply answers_any|].
  intros _ _ w a w' [= <- _]. apply HQ.
Qed.

Lemma is_panel_payload_answer (ev : DropEvent) :
  answers (is_panel_payload ev)
          (fun b => b = hasText (mimeData ev) && String.eqb (text (mimeData ev)) "panel").
Proof.
  unfold is_panel_payload.
  eapply answers_bind; [apply answers_any|]. intros _ _.
  eapply answers_bind.
  { apply (answers_ask _ (fun has => has = hasText (mimeData ev))). reflexivity. }
  intros has ->. destruct (hasText (mimeData ev)); simpl; [|apply answers_ret; reflexivity].
  eapply answers_bind; [apply answers_any|]. intros _ _.
  eapply answers_bind.
  { apply (answers_ask _ (fun t => t = text (mimeData ev))). reflexivity. }
  intros t ->. apply answers_ret. reflexivity.
Qed.

Lemma foreign_payload (ev : DropEvent) :
  ~ (hasText (mimeData ev) = true /\ text (mimeData ev) = "panel") ->
  hasText (mimeData ev) && String.eqb (text (mimeData ev)) "panel" = false.
Proof.
  intros Hp. destruct (hasText (mimeData ev)); simpl; [|reflexivity].
  apply String.eqb_neq. intros Heq. apply Hp. auto.
Qed.

(** With a payload other than ["panel"], [dragEnterEvent] leaves the style
    sheet alone, whatever goes wrong in the toolkit. *)
Lemma dragEnterEvent_keeps_style (ev : DropEvent) :
  ~ (hasText (mimeData ev) = true /\ text (mimeData ev) = "panel") ->
  keeps styleSheet (dragEnterEvent ev).
Proof.
  intros Hp. apply keeps_try_except; [reflexivity|].
  unfold dragEnterEvent_try.
  eapply keeps_bind_answer.
  - apply keeps_is_panel_payload. reflexivity.
  - apply is_panel_payload_answer.
  - intros b ->. rewrite (foreign_payload ev Hp).
    apply keeps_call; reflexivity.
Qed.

(** In a world where no toolkit call fails, the handlers run to their end. *)
Lemma is_panel_payload_quiet (ev : DropEvent) (w : World) :
  faults w = [] ->
  is_panel_payload ev w
  = (Ok (hasText (mimeData ev) && String.eqb (text (mimeData ev)) "panel"), w).
Proof.
  intros Hq. destruct ev as [[has t] p].
  unfold is_panel_payload, ask, gets, qt, mbind, M_bind. simpl.
  destruct has; simpl; rewrite ?Hq; reflexivity.
Qed.

Lemma highlightDropZone_quiet (highlight : bool) (w : World) :
  faults w = [] ->
  highlightDropZone highlight w
  = (Ok tt, setStyleSheet (if highlight then HighlightStyle else PanelStyle) w).
Proof.
  intros Hq. unfold highlightDropZone, applyStyle, try_except, call, modify, qt,
    mbind, M_bind.
  destruct highlight; simpl; rewrite Hq; reflexivity.
Qed.

End WidgetFacts.

Section WidgetClaims.
Import Py Widget.

Lemma qt_quiet (w : World) : faults w = [] -> qt w = (Ok tt, w).
Proof. intros Hq. unfold qt. rewrite Hq. reflexivity. Qed.

Lemma ask_quiet {A} (g : World -> A) (w : World) :
  faults w = [] -> ask g w = (Ok (g w), w).
Proof. intros Hq. unfold ask, mbind, M_bind. rewrite (qt_quiet w Hq). reflexivity. Qed.

Lemma call_quiet (g : World -> World) (w : World) :
  faults w = [] -> call g w = (Ok tt, g w).
Proof. intros Hq. unfold call, mbind, M_bind. rewrite (qt_quiet w Hq). reflexivity. Qed.

(** C3 on the code: the move is made with the left button held, 50 pixels
    away from the recorded press origin, past the threshold of 10; the
    handler logs a [NameError] for [QApplication] and no drag begins. *)
Theorem mouseMoveEvent_past_threshold_starts_no_drag :
  Z.land (buttons move_event) LeftButton <> 0 /\
  dragStartPosition pressed_widget = Some (mkQPoint 10 10) /\
  startDragDistance pressed_widget
    <= manhattanLength (qpoint_sub (pos move_event) (mkQPoint 10 10)) /\
  mouseMoveEvent move_event pressed_widget
  = (Ok tt, logger_error "Error in mouse move event: " (NameError "QApplication")
                         pressed_widget) /\
  drags (snd (mouseMoveEvent move_event pressed_widget)) = [].
Proof.
  repeat split; try reflexivity; vm_compute; discriminate.
Qed.

(** Had the module imported [QApplication], the same handler would begin
    the drag the specification describes: payload ["panel"], a pixmap of
    the widget with its alpha multiplied by 127/255, a move action. *)
Lemma mouseMoveEvent_with_import_starts_drag (w : World) (ev : MouseEvent) (origin : QPoint) :
  faults w = [] ->
  Z.land (buttons ev) LeftButton <> 0 ->
  dragStartPosition w = Some origin ->
  startDragDistance w <= manhattanLength (qpoint_sub (pos ev) origin) ->
  mouseMoveEvent_with ("QApplication" :: module_globals) ev w
  = (Ok tt, exec_ (mkDrag "panel" (widget_size w) 127 (pos ev) MoveAction) w).
Proof.
  intros Hq Hb Ho Hd.
  apply Z.eqb_neq in Hb. apply Z.ltb_ge in Hd.
  destruct w as [st dsp sz thr acc em dr lg fs]. destruct ev as [b bs p].
  simpl in Hq, Hb, Ho, Hd. subst fs dsp.
  unfold mouseMoveEvent_with, try_except, mouseMoveEvent_try.
  change (global ("QApplication" :: module_globals) "QApplication") with (@mret M _ _ tt).
  change (global ("QApplication" :: module_globals) "QDrag") with (@mret M _ _ tt).
  change (global ("QApplication" :: module_globals) "QMimeData") with (@mret M _ _ tt).
  change (global ("QApplication" :: module_globals) "QPixmap") with (@mret M _ _ tt).
  change (global ("QApplication" :: module_globals) "QPainter") with (@mret M _ _ tt).
  change (global ("QApplication" :: module_globals) "QColor") with (@mret M _ _ tt).
  unfold ask, call, gets, modify, qt, get_dragStartPosition.
  unfold mbind, M_bind.
  cbn -[Z.land Z.eqb Z.ltb manhattanLength qpoint_sub].
  rewrite Hb.
  cbn -[Z.land Z.eqb Z.ltb manhattanLength qpoint_sub].
  rewrite Hd. reflexivity.
Qed.

Lemma bind_tail_keeps {A B C} (f : World -> C) (c : M A) (k : A -> M B) (w : World) :
  (forall a, keeps f (k a)) -> f (snd ((c ≫= k) w)) = f (snd (c w)).
Proof.
  intros Hk. unfold mbind, M_bind.
  destruct (c w) as [[a|e] w']; simpl; [apply Hk | reflexivity].
Qed.

Lemma try_except_style (body : M unit) (msg : string) (w : World) :
  styleSheet (snd (try_except body msg w)) = styleSheet (snd (body w)).
Proof.
  unfold try_except. destruct (body w) as [[u|e] w']; reflexivity.
Qed.

Lemma highlightDropZone_false_style (w : World) :
  next_call_ok w -> styleSheet (snd (highlightDropZone false w)) = PanelStyle.
Proof.
  unfold next_call_ok, highlightDropZone, applyStyle, try_except, call, modify, qt,
    mbind, M_bind.
  destruct (faults w) as [|[e|] fs]; simpl; intros Hok;
    [reflexivity | contradiction | reflexivity].
Qed.

(** C7.  After a drag-leave event, and after a drop event whatever its
    payload, the style sheet of the widget is the plain one of [applyStyle];
    all it takes is that the call that sets the style sheet does not itself
    fail. *)
Theorem highlight_cleared (w : World) (ev : DropEvent) :
  next_call_ok w ->
  styleSheet (snd (dragLeaveEvent w)) = PanelStyle /\
  styleSheet (snd (dropEvent ev w)) = PanelStyle.
Proof.
  intros Hok. split.
  - unfold dragLeaveEvent, dragLeaveEvent_try.
    rewrite try_except_style, bind_tail_keeps.
    + apply highlightDropZone_false_style, Hok.
    + intros _. apply keeps_call; reflexivity.
  - unfold dropEvent, dropEvent_try.
    rewrite try_except_style, bind_tail_keeps.
    + apply highlightDropZone_false_style, Hok.
    + intros _. apply keeps_bind; [apply keeps_is_panel_payload; reflexivity|].
      intros [|]; [|apply keeps_call; reflexivity].
      apply keeps_bind; [apply keeps_ask; reflexivity|]. intros p.
      apply keeps_bind; [apply keeps_call; reflexivity|]. intros _.
      apply keeps_call; reflexivity.
Qed.

Lemma highlight_cleared_witness :
  next_call_ok highlighted_widget /\
  styleSheet (snd (dragLeaveEvent highlighted_widget)) = PanelStyle /\
  styleSheet (snd (dropEvent (mkDropEvent (mkMimeData true "text") (mkQPoint 3 4))
                             highlighted_widget)) = PanelStyle.
Proof.
  split; [exact I|].
  apply (highlight_cleared highlighted_widget
           (mkDropEvent (mkMimeData true "text") (mkQPoint 3 4))).
  exact I.
Defined.

(** C8.  A drag-enter event whose payload is not the text ["panel"] (or has
    no text at all) leaves the style sheet as it was and ignores the event. *)
Theorem dragEnterEvent_foreign_payload (w : World) (ev : DropEvent) :
  ~ (hasText (mimeData ev) = true /\ text (mimeData ev) = "panel") ->
  faults w = [] ->
  styleSheet (snd (dragEnterEvent ev w)) = styleSheet w /\
  accepted (snd (dragEnterEvent ev w)) = false.
Proof.
  intros Hp Hq. split; [apply (dragEnterEvent_keeps_style ev Hp)|].
  unfold dragEnterEvent, try_except, dragEnterEvent_try, mbind, M_bind.
  rewrite is_panel_payload_quiet by exact Hq.
  rewrite (foreign_payload ev Hp).
  rewrite call_quiet by exact Hq. reflexivity.
Qed.

Lemma dragEnterEvent_foreign_payload_witness :
  styleSheet (snd (dragEnterEvent (mkDropEvent (mkMimeData false "") (mkQPoint 3 4))
                                  (fresh_widget (mkQSize 200 600) 10))) = PanelStyle /\
  accepted (snd (dragEnterEvent (mkDropEvent (mkMimeData false "") (mkQPoint 3 4))
                                (fresh_widget (mkQSize 200 600) 10))) = false.
Proof.
  apply (dragEnterEvent_foreign_payload (fresh_widget (mkQSize 200 600) 10)
           (mkDropEvent (mkMimeData false "") (mkQPoint 3 4))).
  - simpl. intros [Hh _]. discriminate Hh.
  - reflexivity.
Defined.



End WidgetClaims.

(* ===================================================================== *)
(** * The extension: the column mapping                                   *)
(* ===================================================================== *)

Section ExtensionFacts.
Import Py Extension.

Lemma updateColumnPositions_lookup (host : Host) (st : Ext) (k : Z) :
  ident <$> (panel_columns (updateColumnPositions host st) !! k)
  = ident <$> (panel_columns st !! k).
Proof.
  unfold updateColumnPositions.
  destruct (activeWindow host); simpl; try reflexivity.
  rewrite map_lookup_imap. destruct (panel_columns st !! k); reflexivity.
Qed.

Lemma updateColumnPositions_dom (host : Host) (st : Ext) :
  dom (panel_columns (updateColumnPositions host st)) = dom (panel_columns st).
Proof.
  apply set_eq. intros k. rewrite !elem_of_dom.
  pose proof (updateColumnPositions_lookup host st k) as Hl.
  destruct (panel_columns (updateColumnPositions host st) !! k),
           (panel_columns st !! k); simpl in Hl; try discriminate;
    split; intros [? ?]; try discriminate; eauto.
Qed.

Lemma updateColumnPositions_len (host : Host) (st : Ext) :
  len (panel_columns (updateColumnPositions host st)) = len (panel_columns st).
Proof.
  unfold len. rewrite <- !size_dom, updateColumnPositions_dom. reflexivity.
Qed.

Lemma updateColumnPositions_objects (host : Host) (st : Ext) :
  created (updateColumnPositions host st) = created st /\
  deleted (updateColumnPositions host st) = deleted st.
Proof.
  unfold updateColumnPositions. destruct (activeWindow host); auto.
Qed.

(** At the limit nothing is added. *)
Lemma addPanelColumn_full (host : Host) (st : Ext) :
  8 <= len (panel_columns st) ->
  addPanelColumn host st
  = (false, logger WARNING "Maximum number of panel columns (8) reached" None st).
Proof.
  intros Hlen. unfold addPanelColumn.
  destruct (8 <=? len (panel_columns st)) eqn:Hc; [reflexivity|].
  apply Z.leb_gt in Hc. lia.
Qed.

(** Below the limit the new widget is stored under [len + 1]. *)
Lemma addPanelColumn_adds (host : Host) (st : Ext) :
  constructible host = true ->
  len (panel_columns st) < 8 ->
  fst (addPanelColumn host st) = true /\
  dom (panel_columns (snd (addPanelColumn host st)))
  = {[ len (panel_columns st) + 1 ]} ∪ dom (panel_columns st) /\
  ident <$> (panel_columns (snd (addPanelColumn host st)) !! (len (panel_columns st) + 1))
  = Some (created st) /\
  (forall j, j <> len (panel_columns st) + 1 ->
     ident <$> (panel_columns (snd (addPanelColumn host st)) !! j)
     = ident <$> (panel_columns st !! j)) /\
  deleted (snd (addPanelColumn host st)) = deleted st.
Proof.
  intros Hc Hlen. unfold addPanelColumn.
  destruct (8 <=? len (panel_columns st)) eqn:Hfull.
  { apply Z.leb_le in Hfull. lia. }
  rewrite Hc. simpl. split; [reflexivity|]. split; [|split; [|split]].
  - rewrite updateColumnPositions_dom. simpl. apply dom_insert_L.
  - rewrite updateColumnPositions_lookup. simpl.
    rewrite lookup_insert_eq. reflexivity.
  - intros j Hj. rewrite updateColumnPositions_lookup. simpl.
    rewrite lookup_insert_ne by congruence. reflexivity.
  - rewrite (proj2 (updateColumnPositions_objects host _)). reflexivity.
Qed.

Lemma ids_size (n : nat) : size (list_to_set (C := gset Z) (seqZ 1 (Z.of_nat n))) = n.
Proof.
  rewrite size_list_to_set by apply NoDup_seqZ.
  rewrite length_seqZ. lia.
Qed.

Lemma ids_succ (n : nat) :
  {[ Z.of_nat n + 1 ]} ∪ list_to_set (C := gset Z) (seqZ 1 (Z.of_nat n))
  = list_to_set (seqZ 1 (Z.of_nat (S n))).
Proof.
  apply set_eq. intros x.
  rewrite elem_of_union, elem_of_singleton, !elem_of_list_to_set, !elem_of_seqZ. lia.
Qed.

(** From a mapping whose ids are 1..n, [k] more calls succeed and give the
    ids 1..n+k, as long as that stays within 8. *)
Lemma add_columns_ids (host : Host) (k : nat) :
  constructible host = true ->
  forall (n : nat) (st : Ext),
  dom (panel_columns st) = list_to_set (seqZ 1 (Z.of_nat n)) ->
  (n + k <= 8)%nat ->
  fst (add_columns k host st) = replicate k true /\
  dom (panel_columns (snd (add_columns k host st)))
  = list_to_set (seqZ 1 (Z.of_nat (n + k))).
Proof.
  intros Hc. induction k as [|k IH]; intros n st Hdom Hle; simpl.
  - rewrite Nat.add_0_r. auto.
  - assert (Hlen : len (panel_columns st) = Z.of_nat n).
    { unfold len. rewrite <- size_dom, Hdom, ids_size. reflexivity. }
    destruct (addPanelColumn_adds host st Hc) as (Hr & Hd & _); [lia|].
    destruct (addPanelColumn host st) as [r st1]; simpl in *.
    rewrite Hlen, Hdom, ids_succ in Hd.
    destruct (IH (S n) st1 Hd) as [Hrs Hds]; [lia|].
    destruct (add_columns k host st1) as [rs st2]; simpl in *.
    subst r rs. split; [reflexivity|].
    rewrite Hds. f_equal. f_equal. lia.
Qed.

Lemma py_max_spec (l : list Z) :
  l <> [] ->
  exists k, py_max l = Some k /\ k ∈ l /\ forall j, j ∈ l -> j <= k.
Proof.
  induction l as [|x l IH]; [congruence|]. intros _. simpl.
  destruct l as [|y l'].
  - simpl. exists x. split; [reflexivity|]. split; [left|].
    intros j Hj. apply list_elem_of_singleton in Hj. lia.
  - destruct IH as (m & Hm & Hin & Hmax); [discriminate|].
    rewrite Hm. exists (Z.max x m). split; [reflexivity|]. split.
    + destruct (Z.max_spec x m) as [[_ ->]|[_ ->]]; [right; exact Hin | left].
    + intros j Hj. apply elem_of_cons in Hj as [->|Hj]; [lia|].
      specialize (Hmax j Hj). lia.
Qed.

Lemma max_key_spec (m : gmap Z Column) :
  m <> ∅ ->
  exists k column, max_key m = Some k /\ m !! k = Some column /\
                   forall j, j ∈ dom m -> j <= k.
Proof.
  intros Hne. unfold max_key.
  destruct (py_max_spec (map fst (map_to_list m))) as (k & Hk & Hin & Hmax).
  { intros Hnil. apply Hne. apply map_to_list_empty_iff.
    destruct (map_to_list m); [reflexivity | discriminate]. }
  apply list_elem_of_fmap in Hin as ([k' c] & -> & Hin).
  apply elem_of_map_to_list in Hin. simpl.
  exists k', c. split; [exact Hk|]. split; [exact Hin|].
  intros j Hj. apply Hmax. apply elem_of_dom in Hj as [cj Hj].
  apply list_elem_of_fmap. exists (j, cj). split; [reflexivity|].
  apply elem_of_map_to_list. exact Hj.
Qed.

End ExtensionFacts.

Section ExtensionClaims.
Import Py Extension.

Lemma add_columns_snoc (host : Host) (k : nat) (st : Ext) :
  add_columns (S k) host st
  = (fst (add_columns k host st) ++ [fst (addPanelColumn host (snd (add_columns k host st)))],
     snd (addPanelColumn host (snd (add_columns k host st)))).
Proof.
  revert st. induction k as [|k IH]; intros st.
  - simpl. destruct (addPanelColumn host st); reflexivity.
  - change (add_columns (S (S k)) host st)
      with (let '(r, st1) := addPanelColumn host st in
            let '(rs, st2) := add_columns (S k) host st1 in (r :: rs, st2)).
    destruct (addPanelColumn host st) as [r st1] eqn:Hadd.
    rewrite IH. simpl. rewrite Hadd.
    destruct (add_columns k host st1); reflexivity.
Qed.

(** C4.  With 8 columns in the mapping [addPanelColumn] fails and leaves
    the mapping as it is; from the empty mapping eight calls in a row succeed,
    the k-th giving the ids 1..k, and the ninth fails with the eight columns
    still there. *)
Theorem addPanelColumn_capacity (host : Host) (st : Ext) :
  (len (panel_columns st) = 8 ->
     fst (addPanelColumn host st) = false /\
     panel_columns (snd (addPanelColumn host st)) = panel_columns st) /\
  (panel_columns st = ∅ -> constructible host = true ->
     (forall k : nat, (k <= 8)%nat ->
        fst (add_columns k host st) = replicate k true /\
        dom (panel_columns (snd (add_columns k host st)))
        = list_to_set (seqZ 1 (Z.of_nat k))) /\
     fst (add_columns 9 host st) = replicate 8 true ++ [false] /\
     panel_columns (snd (add_columns 9 host st))
     = panel_columns (snd (add_columns 8 host st)) /\
     len (panel_columns (snd (add_columns 9 host st))) = 8).
Proof.
  split.
  - intros Hlen. rewrite addPanelColumn_full by lia. auto.
  - intros Hempty Hc.
    assert (Hk : forall k : nat, (k <= 8)%nat ->
      fst (add_columns k host st) = replicate k true /\
      dom (panel_columns (snd (add_columns k host st)))
      = list_to_set (seqZ 1 (Z.of_nat k))).
    { intros k Hle. apply (add_columns_ids host k Hc 0%nat st); [|lia].
      rewrite Hempty. simpl. apply dom_empty_L. }
    split; [exact Hk|].
    destruct (Hk 8%nat) as [Hrs Hdom]; [lia|].
    assert (Hlen : len (panel_columns (snd (add_columns 8 host st))) = 8).
    { unfold len. rewrite <- size_dom, Hdom, ids_size. reflexivity. }
    rewrite add_columns_snoc, Hrs.
    rewrite addPanelColumn_full by lia. simpl.
    split; [reflexivity|]. split; [reflexivity|]. exact Hlen.
Qed.

Lemma addPanelColumn_capacity_witness :
  (len (panel_columns eight_columns) = 8 /\
   fst (addPanelColumn host_1600 eight_columns) = false /\
   panel_columns (snd (addPanelColumn host_1600 eight_columns))
   = panel_columns eight_columns) /\
  (fst (add_columns 9 host_1600 init)
   = [true; true; true; true; true; true; true; true; false] /\
   len (panel_columns (snd (add_columns 9 host_1600 init))) = 8).
Proof.
  assert (H8 : len (panel_columns eight_columns) = 8) by (vm_compute; reflexivity).
  split.
  - split; [exact H8|].
    exact (proj1 (addPanelColumn_capacity host_1600 eight_columns) H8).
  - destruct (proj2 (addPanelColumn_capacity host_1600 init) eq_refl eq_refl)
      as (_ & Hrs & _ & Hlen).
    split; [exact Hrs | exact Hlen].
Defined.

(** C5.  Removing an id that is not in the mapping fails and leaves the
    mapping as it is; on a non-empty mapping, removing with no id removes
    the entry with the largest id, and only that one, and succeeds. *)
Theorem removePanelColumn_spec (host : Host) (st : Ext) :
  (forall c, panel_columns st !! c = None ->
     fst (removePanelColumn host (Some c) st) = false /\
     panel_columns (snd (removePanelColumn host (Some c) st)) = panel_columns st) /\
  (panel_columns st <> ∅ ->
     exists k column,
       panel_columns st !! k = Some column /\
       (forall j, j ∈ dom (panel_columns st) -> j <= k) /\
       fst (removePanelColumn host None st) = true /\
       dom (panel_columns (snd (removePanelColumn host None st)))
       = dom (panel_columns st) ∖ {[ k ]} /\
       (forall j, j <> k ->
          ident <$> (panel_columns (snd (removePanelColumn host None st)) !! j)
          = ident <$> (panel_columns st !! j)) /\
       deleted (snd (removePanelColumn host None st)) = deleted st ++ [ident column]).
Proof.
  split.
  - intros c Hc. unfold removePanelColumn.
    destruct (bool_decide (panel_columns st = ∅)); [auto|].
    rewrite Hc. auto.
  - intros Hne.
    destruct (max_key_spec (panel_columns st) Hne) as (k & column & Hk & Hcol & Hmax).
    exists k, column. split; [exact Hcol|]. split; [exact Hmax|].
    unfold removePanelColumn.
    rewrite bool_decide_eq_false_2 by exact Hne.
    rewrite Hk, Hcol. simpl. split; [reflexivity|]. split; [|split].
    + rewrite updateColumnPositions_dom. simpl. apply dom_delete_L.
    + intros j Hj. rewrite updateColumnPositions_lookup. simpl.
      rewrite lookup_delete_ne by congruence. reflexivity.
    + rewrite (proj2 (updateColumnPositions_objects host _)). reflexivity.
Qed.

Lemma removePanelColumn_spec_witness :
  (panel_columns three_columns !! 7 = None /\
   fst (removePanelColumn host_1600 (Some 7) three_columns) = false /\
   panel_columns (snd (removePanelColumn host_1600 (Some 7) three_columns))
   = panel_columns three_columns) /\
  (panel_columns three_columns <> ∅ /\
   fst (removePanelColumn host_1600 None three_columns) = true).
Proof.
  assert (H7 : panel_columns three_columns !! 7 = None) by (vm_compute; reflexivity).
  assert (Hne : panel_columns three_columns <> ∅).
  { intros He. apply (f_equal (fun m => m !! 1)) in He. vm_compute in He. discriminate He. }
  split.
  - split; [exact H7|].
    exact (proj1 (removePanelColumn_spec host_1600 three_columns) 7 H7).
  - split; [exact Hne|].
    destruct (proj2 (removePanelColumn_spec host_1600 three_columns) Hne)
      as (k & column & _ & _ & Hr & _).
    exact Hr.
Defined.

(** C10.  When the id [len + 1] is already in the mapping (the ids are not
    contiguous), [addPanelColumn] succeeds, stores the new widget under
    that id in place of the panel that was there, and the number of columns
    stays what it was. *)
Theorem addPanelColumn_replaces_taken_id (host : Host) (st : Ext) (old : Column) :
  constructible host = true ->
  len (panel_columns st) < 8 ->
  panel_columns st !! (len (panel_columns st) + 1) = Some old ->
  fst (addPanelColumn host st) = true /\
  dom (panel_columns (snd (addPanelColumn host st))) = dom (panel_columns st) /\
  len (panel_columns (snd (addPanelColumn host st))) = len (panel_columns st) /\
  ident <$> (panel_columns (snd (addPanelColumn host st)) !! (len (panel_columns st) + 1))
  = Some (created st) /\
  (forall j, j <> len (panel_columns st) + 1 ->
     ident <$> (panel_columns (snd (addPanelColumn host st)) !! j)
     = ident <$> (panel_columns st !! j)) /\
  deleted (snd (addPanelColumn host st)) = deleted st.
Proof.
  intros Hc Hlen Hold.
  destruct (addPanelColumn_adds host st Hc Hlen) as (Hr & Hdom & Hnew & Hrest & Hdel).
  assert (Hd : dom (panel_columns (snd (addPanelColumn host st))) = dom (panel_columns st)).
  { rewrite Hdom. apply subseteq_union_1_L, singleton_subseteq_l.
    apply elem_of_dom. rewrite Hold. eauto. }
  repeat split; auto.
  unfold len. rewrite <- !size_dom, Hd. reflexivity.
Qed.

Lemma addPanelColumn_replaces_taken_id_witness :
  dom (panel_columns columns_1_3) = {[ 1; 3 ]} /\
  ident <$> (panel_columns columns_1_3 !! 3) = Some 2%nat /\
  fst (addPanelColumn host_1600 columns_1_3) = true /\
  dom (panel_columns (snd (addPanelColumn host_1600 columns_1_3))) = {[ 1; 3 ]} /\
  len (panel_columns (snd (addPanelColumn host_1600 columns_1_3))) = 2 /\
  ident <$> (panel_columns (snd (addPanelColumn host_1600 columns_1_3)) !! 3) = Some 3%nat.
Proof.
  assert (Hold : panel_columns columns_1_3 !! (len (panel_columns columns_1_3) + 1)
                 = Some (mkColumn 2 (Layout.mkQRect 1600 0 800 900)))
    by (vm_compute; reflexivity).
  assert (Hlen : len (panel_columns columns_1_3) < 8) by (vm_compute; reflexivity).
  assert (Hdom : dom (panel_columns columns_1_3) = {[ 1; 3 ]})
    by (vm_compute; reflexivity).
  destruct (addPanelColumn_replaces_taken_id host_1600 columns_1_3 _ eq_refl Hlen Hold)
    as (Hr & Hd & Hl & Hnew & _).
  split; [exact Hdom|]. split; [vm_compute; reflexivity|].
  split; [exact Hr|]. split; [rewrite Hd; exact Hdom|].
  split; [rewrite Hl; vm_compute; reflexivity|]. exact Hnew.
Defined.

End ExtensionClaims.

(* ===================================================================== *)
(** * Further properties of the layout manager                            *)
(* ===================================================================== *)

Section LayoutStore.
Import Py Layout.

(** What [loadLayout] returns depends on the path and the file only. *)
Lemma loadLayout_result_store (m1 m2 : Manager) :
  config_path m1 = config_path m2 -> file m1 = file m2 ->
  fst (loadLayout m1) = fst (loadLayout m2).
Proof.
  intros Hp Hf. unfold loadLayout. rewrite Hp, Hf.
  destruct (path_set (config_path m2)); simpl; [|reflexivity].
  destruct (file m2) as [[| |doc]|]; simpl; try reflexivity.
  destruct (items ← items_of doc; convert_items items []); reflexivity.
Qed.

Lemma loadLayout_store (m : Manager) :
  config_path (snd (loadLayout m)) = config_path m /\
  file (snd (loadLayout m)) = file m /\
  writable (snd (loadLayout m)) = writable m.
Proof.
  unfold loadLayout.
  destruct (path_set (config_path m)); simpl; [|auto].
  destruct (file m) as [[| |doc]|] eqn:Hf; simpl; auto.
  destruct (items ← items_of doc; convert_items items []); simpl; auto.
Qed.

(** [loadLayout] only reads: the file, the path and the write permission
    are what they were, and loading again gives the same result. *)
Theorem loadLayout_reads_only (m : Manager) :
  file (snd (loadLayout m)) = file m /\
  config_path (snd (loadLayout m)) = config_path m /\
  fst (loadLayout (snd (loadLayout m))) = fst (loadLayout m).
Proof.
  destruct (loadLayout_store m) as (Hp & Hf & _).
  split; [exact Hf|]. split; [exact Hp|].
  apply loadLayout_result_store; assumption.
Qed.

(** After a [clearSavedLayout] that returns [True], [loadLayout] finds no
    layout; after one that returns [False] (nothing to delete, or
    [os.remove] raised) the file is still what it was and [loadLayout]
    returns what it would have returned before. *)
Theorem clear_then_load (removable : bool) (m : Manager) :
  file (snd (clearSavedLayout removable m))
  = (if fst (clearSavedLayout removable m) then None else file m) /\
  fst (loadLayout (snd (clearSavedLayout removable m)))
  = (if fst (clearSavedLayout removable m) then None else fst (loadLayout m)).
Proof.
  unfold clearSavedLayout.
  destruct (path_set (config_path m)) eqn:Hp; simpl; [|auto].
  destruct (file m) eqn:Hf; simpl; [|auto].
  destruct removable; simpl.
  - split; [reflexivity|]. unfold loadLayout. simpl. rewrite Hp. reflexivity.
  - split; [exact Hf|]. apply loadLayout_result_store; reflexivity.
Qed.

(** [clearSavedLayout] returns [True] exactly when the path is set, the
    file exists and [os.remove] succeeds; after that a second call finds
    nothing to delete: it returns [False] and changes nothing, whether or
    not a removal would succeed. *)
Theorem clearSavedLayout_twice (removable : bool) (m : Manager) :
  (fst (clearSavedLayout removable m) = true <->
   path_set (config_path m) = true /\ file m <> None /\ removable = true) /\
  (fst (clearSavedLayout removable m) = true ->
   forall removable',
     clearSavedLayout removable' (snd (clearSavedLayout removable m))
     = (false, snd (clearSavedLayout removable m))).
Proof.
  unfold clearSavedLayout.
  destruct (path_set (config_path m)) eqn:Hp; simpl.
  - destruct (file m) eqn:Hf; simpl.
    + destruct removable; simpl.
      * split.
        -- split; [intros _; split; [reflexivity|split; [discriminate|reflexivity]]
                  | reflexivity].
        -- intros _ r'. rewrite Hp. reflexivity.
      * split; [|discriminate].
        split; [discriminate | intros (_ & _ & H); discriminate H].
    + split; [|discriminate].
      split; [discriminate | intros (_ & Hne & _); congruence].
  - split; [|discriminate].
    split; [discriminate | intros (H & _); discriminate H].
Qed.

Lemma clearSavedLayout_twice_witness :
  fst (clearSavedLayout true odd_record_manager) = true /\
  clearSavedLayout true (snd (clearSavedLayout true odd_record_manager))
  = (false, snd (clearSavedLayout true odd_record_manager)).
Proof.
  split; [reflexivity|].
  exact (proj2 (clearSavedLayout_twice true odd_record_manager) eq_refl true).
Defined.

(** A [saveLayout] that fails (no path, an id that [str] cannot write, or
    a file that cannot be opened for writing) leaves the stored file as it
    was: [loadLayout] afterwards returns what it would have returned
    before. *)
Theorem failed_save_keeps_file (panel_columns : list (Z * Panel)) (m : Manager) :
  fst (saveLayout panel_columns m) = false ->
  file (snd (saveLayout panel_columns m)) = file m /\
  fst (loadLayout (snd (saveLayout panel_columns m))) = fst (loadLayout m).
Proof.
  intros Hfail.
  assert (H : config_path (snd (saveLayout panel_columns m)) = config_path m /\
              file (snd (saveLayout panel_columns m)) = file m).
  { unfold saveLayout in *.
    destruct (path_set (config_path m)); simpl in *; [|auto].
    destruct (build_layout_data panel_columns []); simpl in *; [|auto].
    destruct (writable m); simpl in *; [discriminate | auto]. }
  destruct H as [Hp Hf]. split; [exact Hf|].
  apply loadLayout_result_store; assumption.
Qed.

Lemma failed_save_keeps_file_witness :
  fst (saveLayout scenario_snapshot
         (mkManager (config_path odd_record_manager) (file odd_record_manager) false []))
  = false /\
  fst (loadLayout (snd (saveLayout scenario_snapshot
         (mkManager (config_path odd_record_manager) (file odd_record_manager) false []))))
  = Some odd_layout.
Proof.
  split; [reflexivity|].
  rewrite (proj2 (failed_save_keeps_file scenario_snapshot
            (mkManager (config_path odd_record_manager) (file odd_record_manager) false [])
            eq_refl)).
  reflexivity.
Defined.

(** [saveLayout] succeeds exactly when the path is set, [str] can write
    every id and the file can be opened for writing, whatever the size of
    the snapshot: it applies no limit of its own. *)
Lemma saveLayout_succeeds_iff (panel_columns : list (Z * Panel)) (m : Manager) :
  fst (saveLayout panel_columns m) = true <->
  path_set (config_path m) = true /\
  Forall (fun kp => str_int_ok (fst kp)) panel_columns /\
  writable m = true.
Proof.
  pose proof (build_layout_data_Ok_iff panel_columns []) as Hb.
  unfold saveLayout.
  destruct (path_set (config_path m)); simpl;
    [|split; [discriminate | intros [? _]; discriminate]].
  destruct (build_layout_data panel_columns []) as [d|e]; simpl.
  - destruct (writable m); simpl.
    + split; [intros _|reflexivity]. split; [reflexivity|]. split; [|reflexivity].
      apply Hb. eauto.
    + split; [discriminate | intros (_ & _ & ?); discriminate].
  - split; [discriminate|]. intros (_ & Hok & _).
    apply Hb in Hok as [d Hd]. discriminate Hd.
Qed.




(** A file that can be written but not read: [saveLayout] returns [True]
    and [loadLayout] then returns [None]. *)
Lemma save_to_write_only_file :
  let m := mkManager (Some "panel_layout.json") (Some Unreadable) true [] in
  fst (saveLayout two_column_snapshot m) = true /\
  fst (loadLayout (snd (saveLayout two_column_snapshot m))) = None.
Proof. split; reflexivity. Qed.

End LayoutStore.

Section LayoutRecords.
Import Py Layout.

(** Two records of the file whose keys read as the same integer (["1"] and
    ["01"], say) end up in one entry: [loadLayout] never returns more
    entries than the file has records, and under an id it returns the
    conversion of the last record of the file that has that id. *)
Theorem loadLayout_last_record_wins (m : Manager) (layout : list (Z * Entry))
        (pre post : list (string * Json)) (column_id : string) (data : Json) (k : Z) :
  file m = Some (Document (JObj (pre ++ (column_id, data) :: post))) ->
  fst (loadLayout m) = Some layout ->
  int_of_str column_id = Ok k ->
  (forall c d, (c, d) ∈ post -> int_of_str c <> Ok k) ->
  (length layout <= length (pre ++ (column_id, data) :: post))%nat /\
  exists e, convert_record data = Ok e /\ dict_get k layout = Some e.
Proof.
  intros Hfile Hload Hk Hpost.
  destruct (loadLayout_Some m layout Hload) as (_ & items & Hfile' & Hrun).
  assert (items = pre ++ (column_id, data) :: post) as -> by congruence.
  split.
  - apply convert_items_length in Hrun. simpl in Hrun. exact Hrun.
  - eapply convert_items_get_last; eauto.
Qed.

Lemma loadLayout_last_record_wins_witness :
  let first := JObj [ ("x", JInt 0); ("y", JInt 0); ("width", JInt 10);
                      ("height", JInt 10); ("visible", JBool true) ] in
  let second := JObj [ ("x", JInt 5); ("y", JInt 5); ("width", JInt 20);
                       ("height", JInt 20); ("visible", JBool false) ] in
  let m := mkManager (Some "panel_layout.json")
             (Some (Document (JObj ([ ("1", first) ] ++ ("01", second) :: [])))) true [] in
  fst (loadLayout m) = Some [ (1, mkEntry (mkQRect 5 5 20 20) (JBool false)) ] /\
  exists e, convert_record second = Ok e /\
            dict_get 1 [ (1, mkEntry (mkQRect 5 5 20 20) (JBool false)) ] = Some e.
Proof.
  intros first second m.
  assert (Hload : fst (loadLayout m)
                  = Some [ (1, mkEntry (mkQRect 5 5 20 20) (JBool false)) ])
    by reflexivity.
  split; [exact Hload|].
  refine (proj2 (loadLayout_last_record_wins m _ [ ("1", first) ] [] "01" second 1
                   eq_refl Hload eq_refl _)).
  intros c d Hin. inversion Hin.
Defined.

Lemma has_required_keys_subscripts (data : PyVal) (g v : PyVal) :
  py_subscript data "geometry" = Ok g ->
  py_subscript data "visible" = Ok v ->
  has_required_keys data = Ok true.
Proof.
  destruct data; simpl; try discriminate.
  intros Hg Hv. unfold has_required_keys. simpl.
  destruct (find (fun kv => is_str "geometry" (fst kv)) items) as [kg|] eqn:Hfg;
    [|discriminate].
  destruct (find (fun kv => is_str "visible" (fst kv)) items) as [kv|] eqn:Hfv;
    [|discriminate].
  apply find_some in Hfg as [Hing Hsg]. apply find_some in Hfv as [Hinv Hsv].
  assert (Hg' : existsb (fun kv => is_str "geometry" (fst kv)) items = true).
  { apply existsb_exists. eauto. }
  assert (Hv' : existsb (fun kv => is_str "visible" (fst kv)) items = true).
  { apply existsb_exists. eauto. }
  unfold mbind, res_bind. rewrite Hg'. simpl. rewrite Hv'. reflexivity.
Qed.

Lemma validate_items_accepts (items : list (PyVal * PyVal)) :
  (forall column_id data, (column_id, data) ∈ items ->
     isinstance_int column_id = true /\
     (exists r, py_subscript data "geometry" = Ok (PQRect r)) /\
     (exists b, py_subscript data "visible" = Ok (PBool b))) ->
  validate_items items = Ok true.
Proof.
  induction items as [|[cid d] rest IH]; intros Hall; simpl; [reflexivity|].
  destruct (Hall cid d) as (Hint & [r Hr] & [b Hb]); [left|].
  rewrite Hint. simpl.
  rewrite (has_required_keys_subscripts d _ _ Hr Hb). simpl.
  rewrite Hr. simpl. rewrite Hb. simpl.
  apply IH. intros c d' Hin. apply Hall. right. exact Hin.
Qed.

(** What [validateLayout] accepts, exactly: a dict of at most 8 items whose
    keys are [int]s (a [bool] counts as one) and whose values give a [QRect]
    under ['geometry'] and a [bool] under ['visible'].  Anything else (not a
    dict, a [str] key, a missing field, a value that cannot be subscripted)
    is rejected. *)
Theorem validateLayout_accepts_iff (layout_data : PyVal) (m : Manager) :
  fst (validateLayout layout_data m) = true <->
  exists items,
    layout_data = PDict items /\
    (length items <= 8)%nat /\
    forall column_id data, (column_id, data) ∈ items ->
      isinstance_int column_id = true /\
      (exists r, py_subscript data "geometry" = Ok (PQRect r)) /\
      (exists b, py_subscript data "visible" = Ok (PBool b)).
Proof.
  split.
  - unfold validateLayout. destruct layout_data; simpl; try discriminate.
    destruct (8 <? length items)%nat eqn:Hlt; simpl; [discriminate|].
    apply Nat.ltb_ge in Hlt.
    destruct (validate_items items) as [[|]|] eqn:Hv; simpl; try discriminate.
    intros _. exists items. split; [reflexivity|]. split; [exact Hlt|].
    apply validate_items_true, Hv.
  - intros (items & -> & Hlen & Hall). unfold validateLayout.
    destruct (8 <? length items)%nat eqn:Hlt.
    { apply Nat.ltb_lt in Hlt. lia. }
    rewrite (validate_items_accepts items Hall). reflexivity.
Qed.

Lemma validateLayout_accepts_iff_witness :
  fst (validateLayout (py_of_layout getDefaultLayout) scenario_manager) = true /\
  fst (validateLayout (PList []) scenario_manager) = false.
Proof.
  split.
  - apply (proj2 (validateLayout_accepts_iff (py_of_layout getDefaultLayout)
                    scenario_manager)).
    exists [ (PInt 1, py_of_entry (mkEntry (mkQRect 0 0 200 600) (JBool true))) ].
    split; [reflexivity|]. split; [simpl; lia|].
    intros c d Hin. apply list_elem_of_singleton in Hin. injection Hin as -> ->.
    split; [reflexivity|]. split; eexists; reflexivity.
  - destruct (fst (validateLayout (PList []) scenario_manager)) eqn:Hv; [|reflexivity].
    apply (proj1 (validateLayout_accepts_iff (PList []) scenario_manager)) in Hv.
    destruct Hv as (items & Heq & _). discriminate Heq.
Defined.

(** Keys that [int] rejects: a separator character before the digits, a
    gap between sign and digits, a doubled underscore, and a literal of more
    than 4300 digits; and two it accepts. *)
Lemma int_of_str_keys :
  (forall k, int_of_str (String (ascii_of_nat 28) "5") <> Ok k) /\
  (forall k, int_of_str "- 5" <> Ok k) /\
  (forall k, int_of_str "1__0" <> Ok k) /\
  (forall k, int_of_str (string_of_list_ascii (repeat "1"%char 4301)) <> Ok k) /\
  int_of_str " +1_0 " = Ok 10 /\
  int_of_str "007" = Ok 7.
Proof.
  repeat split; try (intros k; vm_compute; discriminate); reflexivity.
Qed.

(** One record that does not convert spoils the whole file: if any record
    of the stored object lacks a field, holds a value that is no C [int], or
    has a key that is no integer, [loadLayout] returns [None] whatever the
    other records are, and leaves the file as it is. *)
Theorem loadLayout_bad_record_spoils_all (m : Manager) (items : list (string * Json))
        (column_id : string) (data : Json) :
  file m = Some (Document (JObj items)) ->
  (column_id, data) ∈ items ->
  (forall e, convert_record data <> Ok e) \/ (forall k, int_of_str column_id <> Ok k) ->
  fst (loadLayout m) = None /\ file (snd (loadLayout m)) = file m.
Proof.
  intros Hfile Hin Hbad. split.
  - exact (proj2 (proj2 (proj2 (proj2 (proj2 (loadLayout_faults m)))))
             items column_id data Hfile Hin Hbad).
  - apply loadLayout_store.
Qed.

Lemma loadLayout_bad_record_spoils_all_witness :
  let good := JObj [ ("x", JInt 0); ("y", JInt 0); ("width", JInt 10);
                     ("height", JInt 10); ("visible", JBool true) ] in
  let bad := JObj [ ("x", JInt 0); ("y", JInt 0); ("width", JInt 10);
                    ("height", JInt 10) ] in
  let m := mkManager (Some "panel_layout.json")
             (Some (Document (JObj [ ("1", good); ("2", bad) ]))) true [] in
  fst (loadLayout m) = None.
Proof.
  intros good bad m.
  refine (proj1 (loadLayout_bad_record_spoils_all m [ ("1", good); ("2", bad) ] "2" bad
                   eq_refl _ _)).
  - right. left.
  - left. intros e He. discriminate He.
Defined.

End LayoutRecords.

(* ===================================================================== *)
(** * Further properties of the panel widget                              *)
(* ===================================================================== *)

Section WidgetHandlers.
Import Py Widget.

Ltac keeps_step :=
  first [ apply keeps_ret
        | apply keeps_raise
        | apply keeps_get_dragStartPosition
        | apply keeps_qt; reflexivity
        | apply keeps_ask; reflexivity
        | apply keeps_call; reflexivity
        | apply keeps_is_panel_payload; reflexivity
        | apply keeps_try_except; [reflexivity|]
        | apply keeps_bind; [|intros ?]
        | match goal with
          | |- keeps _ (if ?b then _ else _) => destruct b
          end
        | solve [intros ?; reflexivity] ].

Ltac keeps_tac := repeat keeps_step.

Lemma highlightDropZone_keeps {B} (f : World -> B) (highlight : bool) :
  (forall fs w, f (set_faults fs w) = f w) ->
  (forall s w, f (setStyleSheet s w) = f w) ->
  (forall msg e w, f (logger_error msg e w) = f w) ->
  keeps f (highlightDropZone highlight).
Proof.
  intros Hf Hs Hl. unfold highlightDropZone, applyStyle.
  apply keeps_try_except; [apply Hl|].
  destruct highlight.
  - apply keeps_call; [exact Hf | apply Hs].
  - apply keeps_try_except; [apply Hl|]. apply keeps_call; [exact Hf | apply Hs].
Qed.

Lemma handle_keeps_drags (ev : Event) : keeps drags (handle ev).
Proof.
  destruct ev as [e|e|e| |e|e]; simpl.
  - unfold mousePressEvent, mousePressEvent_try. keeps_tac.
  - apply mouseMoveEvent_keeps_drags.
  - unfold dragEnterEvent, dragEnterEvent_try. keeps_tac.
  - unfold dragLeaveEvent, dragLeaveEvent_try. keeps_tac.
  - unfold dropEvent, dropEvent_try. keeps_tac.
  - unfold resizeEvent, resizeEvent_try. keeps_tac.
Qed.

Lemma deliver_keeps {B} (f : World -> B) (evs : list Event) :
  Forall (fun ev => keeps f (handle ev)) evs -> keeps f (deliver evs).
Proof.
  induction 1 as [|ev evs Hev _ IH]; simpl; [apply keeps_ret|].
  apply keeps_bind; [exact Hev | intros _; exact IH].
Qed.

(** Whatever events arrive, in whatever order and with whatever toolkit
    faults, the widget never hands a drag to the host: every path to
    [drag.exec_] goes through the unbound name [QApplication]. *)
Theorem deliver_never_starts_drag (evs : list Event) (w : World) :
  drags (snd (deliver evs w)) = drags w.
Proof.
  apply (deliver_keeps drags). apply Forall_forall. intros ev _.
  apply handle_keeps_drags.
Qed.

(** A left press, the toolkit not failing, records the position of the
    press as the drag origin and changes nothing else. *)
Theorem left_press_records_origin (e : MouseEvent) (w : World) :
  faults w = [] ->
  button e = LeftButton ->
  mousePressEvent e w = set_dragStartPosition (pos e) w.
Proof.
  intros Hq Hb. unfold mousePressEvent, try_except, mousePressEvent_try, mbind, M_bind.
  rewrite (ask_quiet _ w Hq). rewrite Hb. simpl.
  rewrite (ask_quiet _ w Hq). reflexivity.
Qed.

Lemma left_press_records_origin_witness :
  dragStartPosition (snd (mousePressEvent press_event (fresh_widget (mkQSize 200 600) 10)))
  = Some (mkQPoint 10 10).
Proof.
  rewrite (left_press_records_origin press_event (fresh_widget (mkQSize 200 600) 10)
             eq_refl eq_refl).
  reflexivity.
Defined.

Lemma try_except_observation {B} (f : World -> B) (body : M unit) (msg : string) (w : World) :
  (forall e w', f (logger_error msg e w') = f w') ->
  f (snd (try_except body msg w)) = f (snd (body w)).
Proof.
  intros Hl. unfold try_except. destruct (body w) as [[u|e] w']; simpl; auto.
Qed.

Lemma bind_after_keeps {A B C} (f : World -> C) (P : C -> C -> Prop)
      (c : M A) (Q : A -> Prop) (k : A -> M B) (w : World) :
  keeps f c -> answers c Q ->
  (forall x, P x x) ->
  (forall a w', Q a -> P (f w') (f (snd (k a w')))) ->
  P (f w) (f (snd ((c ≫= k) w))).
Proof.
  intros Hc HQ Hrefl Hk. unfold mbind, M_bind.
  specialize (Hc w). specialize (HQ w).
  destruct (c w) as [[a|e] w']; simpl in *; rewrite <- Hc; [|apply Hrefl].
  apply Hk. eapply HQ. reflexivity.
Qed.

Lemma mousePressEvent_origin (e : MouseEvent) (w : World) :
  dragStartPosition (snd (mousePressEvent e w)) = dragStartPosition w \/
  (button e = LeftButton /\
   dragStartPosition (snd (mousePressEvent e w)) = Some (pos e)).
Proof.
  unfold mousePressEvent.
  rewrite try_except_observation by reflexivity.
  unfold mousePressEvent_try.
  apply (bind_after_keeps dragStartPosition
           (fun x y => y = x \/ (button e = LeftButton /\ y = Some (pos e)))
           _ (fun b => b = button e)).
  - apply keeps_ask. reflexivity.
  - apply answers_ask. reflexivity.
  - auto.
  - intros b w1 ->. destruct (button e =? LeftButton) eqn:Hb; [|left; reflexivity].
    apply Z.eqb_eq in Hb.
    apply (bind_after_keeps dragStartPosition
             (fun x y => y = x \/ (button e = LeftButton /\ y = Some (pos e)))
             _ (fun p => p = pos e)).
    + apply keeps_ask. reflexivity.
    + apply answers_ask. reflexivity.
    + auto.
    + intros p w2 ->. right. split; [exact Hb | reflexivity].
Qed.

Lemma handle_keeps_origin (ev : Event) :
  (forall e, ev <> MousePress e) -> keeps dragStartPosition (handle ev).
Proof.
  intros Hne. destruct ev as [e|e|e| |e|e]; simpl.
  - exfalso. apply (Hne e). reflexivity.
  - unfold mouseMoveEvent, mouseMoveEvent_with, mouseMoveEvent_try.
    apply keeps_try_except; [reflexivity|].
    apply keeps_bind; [apply keeps_ask; reflexivity|]. intros bs.
    destruct (Z.land bs LeftButton =? 0); [apply keeps_ret|].
    apply keeps_bind; [apply keeps_ask; reflexivity|]. intros p.
    apply keeps_bind; [apply keeps_get_dragStartPosition|]. intros origin.
    apply keeps_bind; [apply keeps_ask; reflexivity|]. intros distance.
    change (global module_globals "QApplication")
      with (@raise unit (NameError "QApplication")).
    apply keeps_raise_bind.
  - unfold dragEnterEvent, dragEnterEvent_try. keeps_tac.
  - unfold dragLeaveEvent, dragLeaveEvent_try. keeps_tac.
  - unfold dropEvent, dropEvent_try. keeps_tac.
  - unfold resizeEvent, resizeEvent_try. keeps_tac.
Qed.

(** Only a left press changes the recorded drag origin, and it sets it to
    the position of the press; no handler ever clears it.  So once a press
    has been recorded, an origin stays recorded through every later event. *)
Theorem origin_only_set_by_left_press (ev : Event) (w : World) :
  (dragStartPosition (snd (handle ev w)) = dragStartPosition w \/
   exists e, ev = MousePress e /\ button e = LeftButton /\
             dragStartPosition (snd (handle ev w)) = Some (pos e)) /\
  (forall evs, is_Some (dragStartPosition w) ->
               is_Some (dragStartPosition (snd (deliver evs w)))).
Proof.
  assert (Hone : forall ev w,
    dragStartPosition (snd (handle ev w)) = dragStartPosition w \/
    exists e, ev = MousePress e /\ button e = LeftButton /\
              dragStartPosition (snd (handle ev w)) = Some (pos e)).
  { intros ev0 w0. destruct ev0 as [e|e|e| |e|e];
      try (left; apply handle_keeps_origin; intros e'; discriminate).
    simpl. destruct (mousePressEvent_origin e w0) as [H|[Hb H]]; [left; exact H|].
    right. exists e. auto. }
  split; [apply Hone|].
  intros evs. revert w. induction evs as [|ev0 evs IH]; intros w0 Hs; simpl; [exact Hs|].
  unfold mbind, M_bind.
  pose proof (try_except_returns (handler_try ev0) (handler_message ev0) w0) as Hret.
  rewrite <- handle_try_except in Hret.
  specialize (Hone ev0 w0).
  destruct (handle ev0 w0) as [[[]|x] w1]; simpl in *; [|discriminate].
  apply IH. destruct Hone as [->|(e & _ & _ & ->)]; [exact Hs | eauto].
Qed.



(** A drag-enter event whose payload is the text ["panel"], the toolkit not
    failing: the proposed action is accepted and the widget takes the
    highlighted style; nothing else changes. *)
Theorem dragEnterEvent_panel_payload (e : DropEvent) (w : World) :
  faults w = [] ->
  hasText (mimeData e) = true ->
  text (mimeData e) = "panel" ->
  dragEnterEvent e w = (Ok tt, setStyleSheet HighlightStyle (setAccepted true w)).
Proof.
  intros Hq Hh Ht. unfold dragEnterEvent, try_except, dragEnterEvent_try, mbind, M_bind.
  rewrite (is_panel_payload_quiet e w Hq), Hh, Ht. simpl.
  rewrite (call_quiet _ w Hq).
  rewrite highlightDropZone_quiet by exact Hq. reflexivity.
Qed.

Lemma dragEnterEvent_panel_payload_witness :
  styleSheet (snd (dragEnterEvent (mkDropEvent (mkMimeData true "panel") (mkQPoint 3 4))
                                  (fresh_widget (mkQSize 200 600) 10))) = HighlightStyle /\
  accepted (snd (dragEnterEvent (mkDropEvent (mkMimeData true "panel") (mkQPoint 3 4))
                                (fresh_widget (mkQSize 200 600) 10))) = true.
Proof.
  rewrite (dragEnterEvent_panel_payload
             (mkDropEvent (mkMimeData true "panel") (mkQPoint 3 4))
             (fresh_widget (mkQSize 200 600) 10) eq_refl eq_refl eq_refl).
  split; reflexivity.
Defined.

(** A drop, the toolkit not failing: the plain style is applied; a
    ["panel"] payload emits [panelMoved] once, with the position of the drop,
    and is accepted; any other payload emits nothing and is ignored. *)
Theorem dropEvent_outcome (e : DropEvent) (w : World) :
  faults w = [] ->
  dropEvent e w =
  if hasText (mimeData e) && String.eqb (text (mimeData e)) "panel"
  then (Ok tt, setAccepted true
                 (emit (panelMoved (drop_pos e)) (setStyleSheet PanelStyle w)))
  else (Ok tt, setAccepted false (setStyleSheet PanelStyle w)).
Proof.
  intros Hq. unfold dropEvent, try_except, dropEvent_try, mbind, M_bind.
  rewrite (highlightDropZone_quiet false w Hq).
  rewrite is_panel_payload_quiet by exact Hq.
  destruct (hasText (mimeData e) && String.eqb (text (mimeData e)) "panel").
  - rewrite ask_quiet by exact Hq. rewrite !call_quiet by exact Hq. reflexivity.
  - rewrite call_quiet by exact Hq. reflexivity.
Qed.

Lemma dropEvent_outcome_witness :
  emitted (snd (dropEvent (mkDropEvent (mkMimeData true "panel") (mkQPoint 3 4))
                          highlighted_widget)) = [ panelMoved (mkQPoint 3 4) ] /\
  accepted (snd (dropEvent (mkDropEvent (mkMimeData true "panel") (mkQPoint 3 4))
                           highlighted_widget)) = true.
Proof.
  rewrite (dropEvent_outcome (mkDropEvent (mkMimeData true "panel") (mkQPoint 3 4))
             highlighted_widget eq_refl).
  split; reflexivity.
Defined.

(** A resize event, the toolkit not failing, emits [panelResized] once with
    the new size and changes nothing else. *)
Theorem resizeEvent_emits (e : ResizeEvent) (w : World) :
  faults w = [] ->
  resizeEvent e w = (Ok tt, emit (panelResized (size e)) w).
Proof.
  intros Hq. unfold resizeEvent, try_except, resizeEvent_try, mbind, M_bind.
  rewrite (qt_quiet w Hq), (ask_quiet _ w Hq), (call_quiet _ w Hq). reflexivity.
Qed.

Lemma resizeEvent_emits_witness :
  emitted (snd (resizeEvent (mkResizeEvent (mkQSize 300 400))
                            (fresh_widget (mkQSize 200 600) 10)))
  = [ panelResized (mkQSize 300 400) ].
Proof.
  rewrite (resizeEvent_emits (mkResizeEvent (mkQSize 300 400))
             (fresh_widget (mkQSize 200 600) 10) eq_refl).
  reflexivity.
Defined.

(** Signals come from drops and resizes only: a press, a move, a
    drag-enter, a drag-leave, and a drop whose payload is not ["panel"] emit
    nothing, whatever fails in the toolkit. *)
Theorem other_events_emit_nothing (ev : Event) (w : World) :
  (forall e, ev <> Resize e) ->
  (forall e, ev = Drop e ->
             ~ (hasText (mimeData e) = true /\ text (mimeData e) = "panel")) ->
  emitted (snd (handle ev w)) = emitted w.
Proof.
  intros Hr Hd. revert w. change (keeps emitted (handle ev)).
  destruct ev as [e|e|e| |e|e]; simpl.
  - unfold mousePressEvent, mousePressEvent_try. keeps_tac.
  - unfold mouseMoveEvent, mouseMoveEvent_with, mouseMoveEvent_try.
    apply keeps_try_except; [reflexivity|].
    apply keeps_bind; [apply keeps_ask; reflexivity|]. intros bs.
    destruct (Z.land bs LeftButton =? 0); [apply keeps_ret|].
    apply keeps_bind; [apply keeps_ask; reflexivity|]. intros p.
    apply keeps_bind; [apply keeps_get_dragStartPosition|]. intros origin.
    apply keeps_bind; [apply keeps_ask; reflexivity|]. intros distance.
    change (global module_globals "QApplication")
      with (@raise unit (NameError "QApplication")).
    apply keeps_raise_bind.
  - unfold dragEnterEvent, dragEnterEvent_try. keeps_tac.
  - unfold dragLeaveEvent, dragLeaveEvent_try. keeps_tac.
  - unfold dropEvent, dropEvent_try.
    apply keeps_try_except; [reflexivity|].
    apply keeps_bind; [apply highlightDropZone_keeps; reflexivity|]. intros _.
    eapply keeps_bind_answer.
    + apply keeps_is_panel_payload. reflexivity.
    + apply is_panel_payload_answer.
    + intros b ->. rewrite (foreign_payload e (Hd e eq_refl)).
      apply keeps_call; reflexivity.
  - exfalso. apply (Hr e). reflexivity.
Qed.

Lemma other_events_emit_nothing_witness :
  emitted (snd (handle (Drop (mkDropEvent (mkMimeData true "text") (mkQPoint 3 4)))
                       highlighted_widget)) = [].
Proof.
  apply (other_events_emit_nothing
           (Drop (mkDropEvent (mkMimeData true "text") (mkQPoint 3 4))) highlighted_widget).
  - intros e He. discriminate He.
  - intros e He [_ Ht]. injection He as <-. discriminate Ht.
Defined.



End WidgetHandlers.

(* ===================================================================== *)
(** * Further properties of the extension                                 *)
(* ===================================================================== *)

Section ExtensionCalls.
Import Py Extension.

Lemma ident_at_update (host : Host) (st : Ext) (k : Z) :
  ident_at (updateColumnPositions host st) k = ident_at st k.
Proof. apply updateColumnPositions_lookup. Qed.

Lemma ident_at_logger (lv : Level) (msg : string) (e : option Exn) (st : Ext) (k : Z) :
  ident_at (logger lv msg e st) k = ident_at st k.
Proof. reflexivity. Qed.

Lemma ident_at_dom (st : Ext) (k : Z) :
  k ∈ dom (panel_columns st) <-> is_Some (ident_at st k).
Proof.
  unfold ident_at. rewrite elem_of_dom.
  destruct (panel_columns st !! k); simpl; split; intros [? ?]; try discriminate; eauto.
Qed.

Lemma ident_at_ext (st1 st2 : Ext) :
  (forall k, ident_at st1 k = ident_at st2 k) ->
  dom (panel_columns st1) = dom (panel_columns st2).
Proof.
  intros H. apply set_eq. intros k. rewrite !ident_at_dom, H. reflexivity.
Qed.

(** The two outcomes of [addPanelColumn], on the widgets under each id. *)
Lemma addPanelColumn_effect (host : Host) (st : Ext) :
  (fst (addPanelColumn host st) = true <->
   len (panel_columns st) < 8 /\ constructible host = true) /\
  (fst (addPanelColumn host st) = true ->
   (forall j, ident_at (snd (addPanelColumn host st)) j
              = if decide (j = len (panel_columns st) + 1)
                then Some (created st) else ident_at st j) /\
   created (snd (addPanelColumn host st)) = S (created st) /\
   deleted (snd (addPanelColumn host st)) = deleted st) /\
  (fst (addPanelColumn host st) = false ->
   panel_columns (snd (addPanelColumn host st)) = panel_columns st /\
   created (snd (addPanelColumn host st)) = created st /\
   deleted (snd (addPanelColumn host st)) = deleted st).
Proof.
  unfold addPanelColumn.
  destruct (8 <=? len (panel_columns st)) eqn:Hfull.
  { apply Z.leb_le in Hfull. simpl. split; [|split].
    - split; [discriminate | intros [H _]; lia].
    - discriminate.
    - auto. }
  apply Z.leb_gt in Hfull.
  destruct (constructible host) eqn:Hc; cbn [fst snd].
  - split; [|split].
    + split; auto.
    + intros _. split; [|split].
      * intros j. rewrite ident_at_logger, ident_at_update. unfold ident_at. simpl.
        destruct (decide (j = len (panel_columns st) + 1)) as [->|Hne].
        -- rewrite lookup_insert_eq. reflexivity.
        -- rewrite lookup_insert_ne by congruence. reflexivity.
      * simpl. rewrite (proj1 (updateColumnPositions_objects host _)). reflexivity.
      * simpl. rewrite (proj2 (updateColumnPositions_objects host _)). reflexivity.
    + discriminate.
  - split; [|split].
    + split; [discriminate | intros [_ H]; discriminate].
    + discriminate.
    + auto.
Qed.

(** [addPanelColumn] is all or nothing.  It returns [True] exactly when
    there are fewer than 8 columns and the widget can be constructed; then
    the new widget sits under [len + 1] and every other id keeps its widget.
    When it returns [False] (the limit, or a constructor that raises) the
    mapping, the widgets created and the widgets deleted are what they
    were. *)
Theorem addPanelColumn_all_or_nothing (host : Host) (st : Ext) :
  (fst (addPanelColumn host st) = true <->
   len (panel_columns st) < 8 /\ constructible host = true) /\
  (fst (addPanelColumn host st) = true ->
   (forall j, ident_at (snd (addPanelColumn host st)) j
              = if decide (j = len (panel_columns st) + 1)
                then Some (created st) else ident_at st j) /\
   created (snd (addPanelColumn host st)) = S (created st) /\
   deleted (snd (addPanelColumn host st)) = deleted st) /\
  (fst (addPanelColumn host st) = false ->
   panel_columns (snd (addPanelColumn host st)) = panel_columns st /\
   created (snd (addPanelColumn host st)) = created st /\
   deleted (snd (addPanelColumn host st)) = deleted st).
Proof.
  destruct (addPanelColumn_effect host st) as (H1 & H2 & H3).
  split; [exact H1|]. split; [exact H2 | exact H3].
Qed.

Lemma addPanelColumn_all_or_nothing_witness :
  fst (addPanelColumn (mkHost (Window 1600 900) false (Layout.mkQRect 0 0 100 100))
                      three_columns) = false /\
  panel_columns (snd (addPanelColumn
                        (mkHost (Window 1600 900) false (Layout.mkQRect 0 0 100 100))
                        three_columns))
  = panel_columns three_columns.
Proof.
  split; [reflexivity|].
  exact (proj1 (proj2 (proj2 (addPanelColumn_all_or_nothing
           (mkHost (Window 1600 900) false (Layout.mkQRect 0 0 100 100)) three_columns))
           eq_refl)).
Defined.

(** The outcome of [removePanelColumn] with an id, on the widgets under each
    id. *)
Lemma removePanelColumn_id_effect (host : Host) (c : Z) (st : Ext) :
  (fst (removePanelColumn host (Some c) st) = true <-> c ∈ dom (panel_columns st)) /\
  (forall j, ident_at (snd (removePanelColumn host (Some c) st)) j
             = if decide (j = c) then None else ident_at st j) /\
  deleted (snd (removePanelColumn host (Some c) st))
  = deleted st ++ option_list (ident_at st c) /\
  created (snd (removePanelColumn host (Some c) st)) = created st.
Proof.
  unfold removePanelColumn.
  destruct (bool_decide (panel_columns st = ∅)) eqn:He.
  { apply bool_decide_eq_true in He. simpl.
    assert (Hnone : forall j, ident_at st j = None).
    { intros j. unfold ident_at. rewrite He, lookup_empty. reflexivity. }
    split; [|split; [|split]].
    - rewrite He, dom_empty_L. split; [discriminate | intros H; inversion H].
    - intros j. unfold ident_at at 1. simpl. fold (ident_at st j).
      rewrite Hnone. destruct (decide (j = c)); reflexivity.
    - rewrite Hnone. simpl. rewrite app_nil_r. reflexivity.
    - reflexivity. }
  rewrite ident_at_dom.
  assert (Hid : ident_at st c = ident <$> (panel_columns st !! c)) by reflexivity.
  destruct (panel_columns st !! c) as [column|] eqn:Hc; cbn [fst snd];
    simpl in Hid; rewrite Hid.
  - split; [|split; [|split]].
    + split; eauto.
    + intros j. rewrite ident_at_logger, ident_at_update. unfold ident_at. simpl.
      destruct (decide (j = c)) as [->|Hne].
      * rewrite lookup_delete_eq. reflexivity.
      * rewrite lookup_delete_ne by congruence. reflexivity.
    + simpl. rewrite (proj2 (updateColumnPositions_objects host _)). reflexivity.
    + simpl. rewrite (proj1 (updateColumnPositions_objects host _)). reflexivity.
  - split; [|split; [|split]].
    + split; [discriminate | intros [? ?]; discriminate].
    + intros j. rewrite ident_at_logger.
      destruct (decide (j = c)) as [->|Hne]; [exact Hid | reflexivity].
    + simpl. rewrite app_nil_r. reflexivity.
    + reflexivity.
Qed.

(** [removePanelColumn] with an id, on any mapping: it returns [True]
    exactly when the id is in the mapping; afterwards the id is gone, its
    widget (if there was one) has been handed to [deleteLater], and every
    other id keeps its widget. *)
Theorem removePanelColumn_by_id (host : Host) (c : Z) (st : Ext) :
  (fst (removePanelColumn host (Some c) st) = true <-> c ∈ dom (panel_columns st)) /\
  (forall j, ident_at (snd (removePanelColumn host (Some c) st)) j
             = if decide (j = c) then None else ident_at st j) /\
  deleted (snd (removePanelColumn host (Some c) st))
  = deleted st ++ option_list (ident_at st c) /\
  created (snd (removePanelColumn host (Some c) st)) = created st.
Proof.
  destruct (removePanelColumn_id_effect host c st) as (H1 & H2 & H3).
  split; [exact H1|]. split; [exact H2 | exact H3].
Qed.

(** Without an id, on a non-empty mapping, [removePanelColumn] is the
    removal of the largest id; on the empty mapping it fails and changes
    nothing but the log. *)
Lemma removePanelColumn_last (host : Host) (st : Ext) :
  (panel_columns st = ∅ /\
   fst (removePanelColumn host None st) = false /\
   panel_columns (snd (removePanelColumn host None st)) = panel_columns st /\
   created (snd (removePanelColumn host None st)) = created st /\
   deleted (snd (removePanelColumn host None st)) = deleted st) \/
  (exists k, k ∈ dom (panel_columns st) /\
             (forall j, j ∈ dom (panel_columns st) -> j <= k) /\
             removePanelColumn host None st = removePanelColumn host (Some k) st).
Proof.
  destruct (decide (panel_columns st = ∅)) as [He|Hne].
  - left. unfold removePanelColumn. rewrite bool_decide_eq_true_2 by exact He. auto.
  - right. destruct (max_key_spec (panel_columns st) Hne) as (k & column & Hk & Hcol & Hmax).
    exists k. split; [apply elem_of_dom; eauto|]. split; [exact Hmax|].
    unfold removePanelColumn. rewrite bool_decide_eq_false_2 by exact Hne.
    rewrite Hk. reflexivity.
Qed.

End ExtensionCalls.

Section ExtensionLayout.
Import Py Extension.

Lemma setGeometry_twice (x y w h : Z) (c : Column) :
  setGeometry x y w h (setGeometry x y w h c) = setGeometry x y w h c.
Proof. reflexivity. Qed.

(** [updateColumnPositions] moves and resizes the widgets but never adds,
    removes or swaps one, and it is stable: a second call in the same host
    leaves every column where the first one put it. *)
Theorem updateColumnPositions_stable (host : Host) (st : Ext) :
  dom (panel_columns (updateColumnPositions host st)) = dom (panel_columns st) /\
  (forall k, ident_at (updateColumnPositions host st) k = ident_at st k) /\
  panel_columns (updateColumnPositions host (updateColumnPositions host st))
  = panel_columns (updateColumnPositions host st).
Proof.
  split; [apply updateColumnPositions_dom|]. split; [apply ident_at_update|].
  pose proof (updateColumnPositions_len host st) as Hlen.
  unfold updateColumnPositions in *.
  destruct (activeWindow host) as [| |W H]; simpl in *; try reflexivity.
  apply map_eq. intros k. rewrite !map_lookup_imap. rewrite Hlen.
  destruct (panel_columns st !! k); reflexivity.
Qed.

(** With ids 1..n and a window of positive width, [updateColumnPositions]
    puts column [idx] at x = (idx - 1) * (width // n), y = 0: the columns
    start inside the window, left to right in id order. *)
Theorem columns_start_inside_window (host : Host) (st : Ext) (n : nat)
        (W H : Z) (idx : Z) (column : Column) :
  activeWindow host = Window W H ->
  0 < W ->
  ids_upto n st ->
  panel_columns (updateColumnPositions host st) !! idx = Some column ->
  Layout.rect_x (geometry column) = (idx - 1) * (W `div` Z.of_nat n) /\
  Layout.rect_y (geometry column) = 0 /\
  0 <= Layout.rect_x (geometry column) < W.
Proof.
  intros Hwin HW Hids Hcol.
  assert (Hlen : len (panel_columns st) = Z.of_nat n).
  { unfold len. rewrite <- size_dom, Hids, ids_size. reflexivity. }
  assert (Hidx : 1 <= idx <= Z.of_nat n).
  { assert (Hin : idx ∈ dom (panel_columns (updateColumnPositions host st)))
      by (apply elem_of_dom; eauto).
    rewrite updateColumnPositions_dom, Hids in Hin.
    apply elem_of_list_to_set, elem_of_seqZ in Hin. lia. }
  unfold updateColumnPositions in Hcol. rewrite Hwin in Hcol. simpl in Hcol.
  rewrite map_lookup_imap, Hlen in Hcol.
  destruct (panel_columns st !! idx) as [c0|]; simpl in Hcol; [|discriminate].
  injection Hcol as <-. simpl.
  replace (Z.max (Z.of_nat n) 1) with (Z.of_nat n) by lia.
  split; [reflexivity|]. split; [reflexivity|].
  set (q := W `div` Z.of_nat n).
  assert (Hq : 0 <= q) by (apply Z.div_pos; lia).
  assert (Hm : Z.of_nat n * q <= W) by (apply Z.mul_div_le; lia).
  split; [nia|].
  assert (Hx : (idx - 1) * q <= (Z.of_nat n - 1) * q)
    by (apply Z.mul_le_mono_nonneg_r; lia).
  clearbody q. nia.
Qed.

Lemma columns_start_inside_window_witness :
  Layout.rect_x (geometry (mkColumn 2 (Layout.mkQRect 1066 0 533 900))) = (3 - 1) * (1600 `div` 3).
Proof.
  refine (proj1 (columns_start_inside_window host_1600 three_columns 3 1600 900 3
                   (mkColumn 2 (Layout.mkQRect 1066 0 533 900)) eq_refl _ _ _)).
  - lia.
  - vm_compute. reflexivity.
  - vm_compute. reflexivity.
Defined.

End ExtensionLayout.

Section ExtensionInvariants.
Import Py Extension.

Lemma run_calls_invariant (I : Ext -> Prop) :
  (forall host c st, I st -> I (run_call host c st)) ->
  forall calls st, I st -> I (run_calls calls st).
Proof.
  intros Hstep calls. unfold run_calls.
  induction calls as [|[host c] calls IH]; intros st Hst; simpl; [exact Hst|].
  apply IH, Hstep, Hst.
Qed.

Lemma addPanelColumn_len (host : Host) (st : Ext) :
  len (panel_columns st) <= 8 ->
  len (panel_columns (snd (addPanelColumn host st))) <= 8.
Proof.
  intros Hle. unfold addPanelColumn.
  destruct (8 <=? len (panel_columns st)) eqn:Hfull; simpl; [exact Hle|].
  apply Z.leb_gt in Hfull.
  destruct (constructible host); simpl; [|exact Hle].
  rewrite updateColumnPositions_len. simpl. unfold len in *.
  rewrite map_size_insert.
  destruct (panel_columns st !! (Z.of_nat (size (panel_columns st)) + 1));
    unfold id; lia.
Qed.

Lemma removePanelColumn_len (host : Host) (column_id : option Z) (st : Ext) :
  len (panel_columns (snd (removePanelColumn host column_id st)))
  <= len (panel_columns st).
Proof.
  unfold removePanelColumn.
  destruct (bool_decide (panel_columns st = ∅)); simpl; [lia|].
  destruct (match column_id with Some c => Some c | None => max_key (panel_columns st) end)
    as [c|]; simpl; [|lia].
  destruct (panel_columns st !! c) eqn:Hc; simpl; [|lia].
  rewrite updateColumnPositions_len. simpl. unfold len.
  rewrite map_size_delete, Hc. lia.
Qed.

Lemma remove_all_len (host : Host) (keys : list Z) (st : Ext) :
  len (panel_columns
         (foldl (fun s column_id => snd (removePanelColumn host (Some column_id) s)) st keys))
  <= len (panel_columns st).
Proof.
  revert st. induction keys as [|k keys IH]; intros st; simpl; [lia|].
  etransitivity; [apply IH|]. apply removePanelColumn_len.
Qed.

(** The limit holds through everything: whatever calls are made, in
    whatever hosts and with whatever arguments, an extension that starts
    with at most 8 columns never has more than 8. *)
Theorem never_more_than_eight (calls : list (Host * Call)) (st : Ext) :
  len (panel_columns st) <= 8 ->
  len (panel_columns (run_calls calls st)) <= 8.
Proof.
  apply (run_calls_invariant (fun s => len (panel_columns s) <= 8)).
  intros host c s Hs. destruct c as [|cid|keys|canvas]; simpl.
  - apply addPanelColumn_len, Hs.
  - etransitivity; [apply removePanelColumn_len | exact Hs].
  - unfold resetLayout, createDefaultLayout. simpl.
    apply addPanelColumn_len.
    etransitivity; [apply remove_all_len | exact Hs].
  - unfold canvasChanged. destruct canvas; [|exact Hs].
    rewrite updateColumnPositions_len. exact Hs.
Qed.

Lemma never_more_than_eight_witness :
  len (panel_columns
         (run_calls [ (host_1600, CallAdd); (host_1600, CallAdd);
                      (host_1600, CallReset [8; 1]); (host_1600, CallRemove (Some 3)) ]
                    eight_columns)) <= 8.
Proof.
  apply (never_more_than_eight _ eight_columns). vm_compute. discriminate.
Defined.

End ExtensionInvariants.

Section ExtensionObjects.
Import Py Extension.

Lemma objects_ok_same (st st' : Ext) :
  (forall k, ident_at st' k = ident_at st k) ->
  created st' = created st -> deleted st' = deleted st ->
  objects_ok st -> objects_ok st'.
Proof.
  intros Hi Hc Hd (Ha & Hb & Hdel). unfold objects_ok. rewrite Hc, Hd.
  split; [|split].
  - intros k i. rewrite Hi. apply Ha.
  - intros k1 k2 i. rewrite !Hi. apply Hb.
  - exact Hdel.
Qed.

Lemma objects_ok_add (host : Host) (st : Ext) :
  objects_ok st -> objects_ok (snd (addPanelColumn host st)).
Proof.
  intros Hok.
  destruct (addPanelColumn_effect host st) as (_ & Hyes & Hno).
  destruct (fst (addPanelColumn host st)) eqn:Hr.
  - destruct (Hyes eq_refl) as (Hid & Hc & Hd). clear Hyes Hno.
    destruct Hok as (Ha & Hb & Hdel). unfold objects_ok. rewrite Hc, Hd.
    split; [|split].
    + intros k i. rewrite Hid.
      destruct (decide (k = len (panel_columns st) + 1)).
      * intros [= <-]. split; [lia|]. intros Hin. apply Hdel in Hin. lia.
      * intros Hk. destruct (Ha k i Hk). split; [lia | assumption].
    + intros k1 k2 i. rewrite !Hid.
      destruct (decide (k1 = len (panel_columns st) + 1)) as [->|H1],
               (decide (k2 = len (panel_columns st) + 1)) as [->|H2]; auto.
      * intros [= <-] H. apply Ha in H. lia.
      * intros H [= <-]. apply Ha in H. lia.
      * apply Hb.
    + intros i Hin. apply Hdel in Hin. lia.
  - destruct (Hno eq_refl) as (Hm & Hc & Hd).
    apply (objects_ok_same st); auto.
    intros k. unfold ident_at. rewrite Hm. reflexivity.
Qed.

Lemma objects_ok_remove_id (host : Host) (c : Z) (st : Ext) :
  objects_ok st -> objects_ok (snd (removePanelColumn host (Some c) st)).
Proof.
  intros (Ha & Hb & Hdel).
  destruct (removePanelColumn_id_effect host c st) as (_ & Hid & Hd & Hc).
  unfold objects_ok. rewrite Hc, Hd. split; [|split].
  - intros k i. rewrite Hid. destruct (decide (k = c)) as [|Hkc]; [discriminate|].
    intros Hk. destruct (Ha k i Hk) as [Hlt Hnd]. split; [exact Hlt|].
    rewrite elem_of_app. intros [Hin|Hin]; [exact (Hnd Hin)|].
    destruct (ident_at st c) as [i'|] eqn:Hic; simpl in Hin; [|inversion Hin].
    apply list_elem_of_singleton in Hin. subst i'. apply Hkc. eapply Hb; eauto.
  - intros k1 k2 i. rewrite !Hid.
    destruct (decide (k1 = c)); [discriminate|].
    destruct (decide (k2 = c)); [discriminate|]. apply Hb.
  - intros i. rewrite elem_of_app. intros [Hin|Hin]; [apply Hdel, Hin|].
    destruct (ident_at st c) as [i'|] eqn:Hic; simpl in Hin; [|inversion Hin].
    apply list_elem_of_singleton in Hin. subst i'. apply (Ha c i Hic).
Qed.

Lemma objects_ok_remove (host : Host) (column_id : option Z) (st : Ext) :
  objects_ok st -> objects_ok (snd (removePanelColumn host column_id st)).
Proof.
  intros Hok. destruct column_id as [c|]; [apply objects_ok_remove_id, Hok|].
  destruct (removePanelColumn_last host st) as [(_ & _ & Hm & Hc & Hd)|(k & _ & _ & ->)].
  - apply (objects_ok_same st); auto.
    intros j. unfold ident_at. rewrite Hm. reflexivity.
  - apply objects_ok_remove_id, Hok.
Qed.

Lemma objects_ok_update (host : Host) (st : Ext) :
  objects_ok st -> objects_ok (updateColumnPositions host st).
Proof.
  apply objects_ok_same.
  - apply ident_at_update.
  - apply updateColumnPositions_objects.
  - apply updateColumnPositions_objects.
Qed.

Lemma objects_ok_remove_all (host : Host) (keys : list Z) (st : Ext) :
  objects_ok st ->
  objects_ok (foldl (fun s column_id => snd (removePanelColumn host (Some column_id) s))
                    st keys).
Proof.
  revert st. induction keys as [|k keys IH]; intros st Hok; simpl; [exact Hok|].
  apply IH, objects_ok_remove_id, Hok.
Qed.

(** Whatever calls are made, the widgets in the mapping stay distinct
    objects that the extension created, and none of them is one that has
    been handed to [deleteLater]: the mapping never holds a deleted widget
    and never holds the same widget under two ids. *)
Theorem mapping_holds_live_distinct_widgets (calls : list (Host * Call)) (st : Ext) :
  objects_ok st -> objects_ok (run_calls calls st).
Proof.
  apply (run_calls_invariant objects_ok).
  intros host c s Hs. destruct c as [|cid|keys|canvas]; simpl.
  - apply objects_ok_add, Hs.
  - apply objects_ok_remove, Hs.
  - unfold resetLayout, createDefaultLayout.
    apply (objects_ok_same (snd (addPanelColumn host
             (foldl (fun s0 column_id => snd (removePanelColumn host (Some column_id) s0))
                    s keys)))); try reflexivity.
    apply objects_ok_add, objects_ok_remove_all, Hs.
  - unfold canvasChanged. destruct canvas; [apply objects_ok_update, Hs | exact Hs].
Qed.

Lemma objects_ok_init : objects_ok init.
Proof.
  split; [|split].
  - intros k i H. unfold ident_at in H. simpl in H. rewrite lookup_empty in H. discriminate H.
  - intros k1 k2 i H. unfold ident_at in H. simpl in H. rewrite lookup_empty in H.
    discriminate H.
  - intros i H. inversion H.
Qed.

Lemma mapping_holds_live_distinct_widgets_witness :
  objects_ok (run_calls [ (host_1600, CallAdd); (host_1600, CallAdd);
                          (host_1600, CallRemove (Some 1)); (host_1600, CallAdd) ] init).
Proof.
  apply (mapping_holds_live_distinct_widgets _ init). exact objects_ok_init.
Defined.

End ExtensionObjects.

Section ExtensionIds.
Import Py Extension.

Lemma ids_upto_len (n : nat) (st : Ext) :
  ids_upto n st -> len (panel_columns st) = Z.of_nat n.
Proof.
  intros Hids. unfold len. rewrite <- size_dom, Hids, ids_size. reflexivity.
Qed.

Lemma ids_upto_dom (n : nat) (st st' : Ext) :
  dom (panel_columns st') = dom (panel_columns st) -> ids_upto n st -> ids_upto n st'.
Proof. unfold ids_upto. intros ->. auto. Qed.

Lemma ids_without_last (n : nat) :
  list_to_set (C := gset Z) (seqZ 1 (Z.of_nat (S n))) ∖ {[ Z.of_nat (S n) ]}
  = list_to_set (seqZ 1 (Z.of_nat n)).
Proof.
  apply set_eq. intros x.
  rewrite elem_of_difference, elem_of_singleton, !elem_of_list_to_set, !elem_of_seqZ. lia.
Qed.

Lemma ids_upto_add (host : Host) (n : nat) (st : Ext) :
  ids_upto n st ->
  if fst (addPanelColumn host st)
  then ids_upto (S n) (snd (addPanelColumn host st)) /\ (n < 8)%nat
  else ids_upto n (snd (addPanelColumn host st)).
Proof.
  intros Hids. pose proof (ids_upto_len n st Hids) as Hlen.
  destruct (addPanelColumn_effect host st) as (Hiff & _ & Hno).
  destruct (fst (addPanelColumn host st)) eqn:Hr.
  - destruct (proj1 Hiff eq_refl) as [Hlt Hc].
    destruct (addPanelColumn_adds host st Hc Hlt) as (_ & Hdom & _).
    split; [|lia]. unfold ids_upto. rewrite Hdom, Hlen, Hids. apply ids_succ.
  - destruct (Hno eq_refl) as (Hm & _). unfold ids_upto. rewrite Hm. exact Hids.
Qed.

Lemma ids_upto_remove_last (host : Host) (n : nat) (st : Ext) :
  ids_upto n st ->
  ids_upto (pred n) (snd (removePanelColumn host None st)) /\
  (fst (removePanelColumn host None st) = true <-> (0 < n)%nat).
Proof.
  intros Hids.
  destruct (removePanelColumn_last host st)
    as [(He & Hr & Hm & _)|(k & Hk & Hmax & Heq)].
  - assert (n = 0%nat) as ->.
    { apply ids_upto_len in Hids. unfold len in Hids.
      rewrite He, map_size_empty in Hids. lia. }
    split; [|rewrite Hr; split; [discriminate | lia]].
    simpl. unfold ids_upto. rewrite Hm. exact Hids.
  - rewrite Heq.
    destruct (removePanelColumn_id_effect host k st) as (Hr & Hid & _).
    assert (Hkn : k = Z.of_nat n /\ (0 < n)%nat).
    { unfold ids_upto in Hids. rewrite Hids in Hk, Hmax.
      apply elem_of_list_to_set, elem_of_seqZ in Hk.
      assert (Hn : Z.of_nat n <= k).
      { apply Hmax. apply elem_of_list_to_set, elem_of_seqZ. lia. }
      lia. }
    destruct Hkn as [-> Hpos]. split; [|rewrite Hr; split; auto].
    destruct n as [|n']; [lia|]. simpl pred. unfold ids_upto.
    rewrite <- ids_without_last, <- Hids.
    apply set_eq. intros j. rewrite ident_at_dom, Hid, elem_of_difference,
      elem_of_singleton, ident_at_dom.
    destruct (decide (j = Z.of_nat (S n'))); split.
    + intros [? ?]; discriminate.
    + intros [_ Hne]. contradiction.
    + auto.
    + intros [H _]. exact H.
Qed.

(** Adding columns and removing the last one, with canvas changes in
    between, keeps the ids contiguous: from ids 1..n the ids are again
    1..n' for some n' of at most 8.  So these calls alone never produce the
    gap in which [addPanelColumn] would reuse an id. *)
Theorem plain_calls_keep_ids_contiguous (calls : list (Host * Call)) (st : Ext) (n : nat) :
  Forall (fun hc => plain_call (snd hc)) calls ->
  ids_upto n st -> (n <= 8)%nat ->
  exists n', (n' <= 8)%nat /\ ids_upto n' (run_calls calls st).
Proof.
  intros Hplain. revert st n. unfold run_calls.
  induction Hplain as [|[host c] calls Hc _ IH]; intros st n Hids Hn; simpl.
  { exists n. auto. }
  simpl in Hc. destruct c as [|[cid|]|keys|canvas]; try contradiction; simpl.
  - pose proof (ids_upto_add host n st Hids) as Hadd.
    destruct (fst (addPanelColumn host st)).
    + destruct Hadd as [Hs Hlt]. apply (IH _ (S n) Hs). lia.
    + apply (IH _ n Hadd Hn).
  - destruct (ids_upto_remove_last host n st Hids) as [Hs _].
    apply (IH _ (pred n) Hs). lia.
  - apply (IH _ n); [|exact Hn]. unfold canvasChanged.
    destruct canvas; [|exact Hids].
    apply (ids_upto_dom n st); [apply updateColumnPositions_dom | exact Hids].
Qed.

Lemma ids_upto_init : ids_upto 0 init.
Proof. unfold ids_upto. simpl. apply dom_empty_L. Qed.

Lemma plain_calls_keep_ids_contiguous_witness :
  exists n', (n' <= 8)%nat /\
    ids_upto n' (run_calls [ (host_1600, CallAdd); (host_1600, CallAdd);
                             (host_1600, CallRemove None);
                             (host_1600, CallCanvasChanged true) ] init).
Proof.
  apply (plain_calls_keep_ids_contiguous _ init 0).
  - repeat constructor.
  - exact ids_upto_init.
  - lia.
Defined.

(** Add, then remove the last: from ids 1..n with room for one more, a
    successful [addPanelColumn] followed by [removePanelColumn()] gives back
    the same widgets under the same ids, and the widget that was added is
    the one handed to [deleteLater]. *)
Theorem add_then_remove_last (host host' : Host) (st : Ext) (n : nat) :
  ids_upto n st -> (n < 8)%nat -> constructible host = true ->
  let st1 := snd (addPanelColumn host st) in
  let st2 := snd (removePanelColumn host' None st1) in
  fst (addPanelColumn host st) = true /\
  fst (removePanelColumn host' None st1) = true /\
  (forall j, ident_at st2 j = ident_at st j) /\
  deleted st2 = deleted st ++ [created st].
Proof.
  intros Hids Hn Hc st1 st2. subst st1 st2.
  pose proof (ids_upto_len n st Hids) as Hlen.
  destruct (addPanelColumn_effect host st) as (Hiff & Hyes & _).
  assert (Hr : fst (addPanelColumn host st) = true) by (apply Hiff; split; [lia | exact Hc]).
  destruct (Hyes Hr) as (Hid & _ & Hd). clear Hyes.
  pose proof (ids_upto_add host n st Hids) as Hadd. rewrite Hr in Hadd.
  destruct Hadd as [Hs _].
  destruct (ids_upto_remove_last host' (S n) _ Hs) as [_ Hrem].
  split; [exact Hr|]. split; [apply Hrem; lia|].
  destruct (removePanelColumn_last host' (snd (addPanelColumn host st)))
    as [(He & _)|(k & Hk & Hmax & Heq)].
  { exfalso. apply ids_upto_len in Hs. unfold len in Hs.
    rewrite He, map_size_empty in Hs. lia. }
  assert (Hkn : k = Z.of_nat n + 1).
  { unfold ids_upto in Hs. rewrite Hs in Hk, Hmax.
    apply elem_of_list_to_set, elem_of_seqZ in Hk.
    assert (Z.of_nat (S n) <= k)
      by (apply Hmax; apply elem_of_list_to_set, elem_of_seqZ; lia).
    lia. }
  subst k. rewrite Heq.
  destruct (removePanelColumn_id_effect host' (Z.of_nat n + 1) (snd (addPanelColumn host st)))
    as (_ & Hid2 & Hd2 & _).
  split.
  - intros j. rewrite Hid2, Hid, Hlen.
    destruct (decide (j = Z.of_nat n + 1)) as [->|]; [|reflexivity].
    symmetry. destruct (ident_at st (Z.of_nat n + 1)) eqn:Hat; [|reflexivity].
    exfalso. assert (Hin : Z.of_nat n + 1 ∈ dom (panel_columns st))
      by (apply ident_at_dom; eauto).
    rewrite Hids in Hin. apply elem_of_list_to_set, elem_of_seqZ in Hin. lia.
  - rewrite Hd2, Hid, Hlen, Hd.
    destruct (decide (Z.of_nat n + 1 = Z.of_nat n + 1)); [reflexivity | congruence].
Qed.

Lemma add_then_remove_last_witness :
  fst (addPanelColumn host_1600 three_columns) = true /\
  fst (removePanelColumn host_1600 None (snd (addPanelColumn host_1600 three_columns)))
  = true /\
  deleted (snd (removePanelColumn host_1600 None
                  (snd (addPanelColumn host_1600 three_columns))))
  = deleted three_columns ++ [created three_columns].
Proof.
  assert (Hids : ids_upto 3 three_columns) by (vm_compute; reflexivity).
  assert (Hn : (3 < 8)%nat) by lia.
  destruct (add_then_remove_last host_1600 host_1600 three_columns 3 Hids Hn eq_refl)
    as (Ha & Hr & _ & Hd).
  split; [exact Ha|]. split; [exact Hr | exact Hd].
Defined.

End ExtensionIds.

Section ExtensionReset.
Import Py Extension.

(** The loop of [resetLayout]: the ids it walks are gone, the others keep
    their widgets, and the widgets of the ids it walked have been handed to
    [deleteLater]. *)
Lemma remove_all_spec (host : Host) (keys : list Z) :
  forall st,
  let st1 := foldl (fun s column_id => snd (removePanelColumn host (Some column_id) s))
                   st keys in
  (forall j, ident_at st1 j = if decide (j ∈ keys) then None else ident_at st j) /\
  created st1 = created st /\
  (forall i, i ∈ deleted st -> i ∈ deleted st1) /\
  (forall k i, k ∈ keys -> ident_at st k = Some i -> i ∈ deleted st1).
Proof.
  induction keys as [|c keys IH]; intros st; simpl.
  - split; [|split; [|split]].
    + intros j. destruct (decide (j ∈ [])) as [Hin|]; [inversion Hin | reflexivity].
    + reflexivity.
    + intros i Hin. exact Hin.
    + intros k i Hin. inversion Hin.
  - destruct (removePanelColumn_id_effect host c st) as (_ & Hid & Hd & Hc).
    destruct (IH (snd (removePanelColumn host (Some c) st))) as (Hid' & Hc' & Hmono & Hdel).
    split; [|split; [|split]].
    + intros j. rewrite Hid', Hid.
      destruct (decide (j ∈ keys)) as [Hin|Hnin], (decide (j ∈ c :: keys)) as [Hin'|Hnin'];
        try reflexivity.
      * exfalso. apply Hnin'. right. exact Hin.
      * apply elem_of_cons in Hin' as [->|Hin']; [|contradiction].
        destruct (decide (c = c)); [reflexivity | congruence].
      * destruct (decide (j = c)) as [->|]; [|reflexivity].
        exfalso. apply Hnin'. left.
    + rewrite Hc'. exact Hc.
    + intros i Hin. apply Hmono. rewrite Hd, elem_of_app. left. exact Hin.
    + intros k i Hin Hat.
      destruct (decide (k = c)) as [->|Hne].
      * apply Hmono. rewrite Hd, Hat, elem_of_app. right. simpl. left.
      * apply elem_of_cons in Hin as [->|Hin]; [congruence|].
        apply (Hdel k i Hin). rewrite Hid.
        destruct (decide (k = c)); [congruence | exact Hat].
Qed.

(** [resetLayout], given the ids of the mapping: every widget that was in
    the mapping has been handed to [deleteLater]; if a widget can be
    constructed the mapping then holds exactly one column, id 1, with a new
    widget, and otherwise it is empty. *)
Theorem resetLayout_result (host : Host) (keys : list Z) (st : Ext) :
  (forall k, k ∈ dom (panel_columns st) -> k ∈ keys) ->
  let st' := resetLayout host keys st in
  (forall k i, ident_at st k = Some i -> i ∈ deleted st') /\
  (constructible host = true ->
     dom (panel_columns st') = {[ 1 ]} /\ ident_at st' 1 = Some (created st)) /\
  (constructible host = false -> panel_columns st' = ∅).
Proof.
  intros Hkeys st'. subst st'. unfold resetLayout, createDefaultLayout.
  set (st1 := foldl (fun s column_id => snd (removePanelColumn host (Some column_id) s))
                    st keys).
  destruct (remove_all_spec host keys st) as (Hid & Hc & Hmono & Hdel). fold st1 in Hid, Hc, Hmono, Hdel.
  assert (Hempty : panel_columns st1 = ∅).
  { apply map_eq. intros j. rewrite lookup_empty.
    specialize (Hid j). unfold ident_at in Hid.
    destruct (decide (j ∈ keys)) as [Hin|Hnin].
    - destruct (panel_columns st1 !! j); [discriminate | reflexivity].
    - destruct (panel_columns st1 !! j) as [col|] eqn:Hj; [|reflexivity].
      exfalso. apply Hnin, Hkeys. apply elem_of_dom.
      destruct (panel_columns st !! j); [eauto | discriminate]. }
  assert (Hlen : len (panel_columns st1) = 0).
  { unfold len. rewrite Hempty, map_size_empty. reflexivity. }
  destruct (addPanelColumn_effect host st1) as (Hiff & Hyes & Hno).
  split; [|split].
  - intros k i Hat.
    assert (Hin : i ∈ deleted st1).
    { apply (Hdel k i); [|exact Hat]. apply Hkeys, ident_at_dom. eauto. }
    simpl. destruct (fst (addPanelColumn host st1)) eqn:Hr.
    + destruct (Hyes eq_refl) as (_ & _ & ->). exact Hin.
    + destruct (Hno eq_refl) as (_ & _ & ->). exact Hin.
  - intros Hcon.
    assert (Hr : fst (addPanelColumn host st1) = true) by (apply Hiff; split; [lia | exact Hcon]).
    destruct (Hyes Hr) as (Hid1 & _ & _).
    destruct (addPanelColumn_adds host st1 Hcon) as (_ & Hdom & _); [lia|].
    simpl. split.
    + rewrite Hdom, Hlen, Hempty, dom_empty_L. simpl. apply (right_id_L ∅ (∪)).
    + change (ident_at (snd (addPanelColumn host st1)) 1 = Some (created st)).
      rewrite Hid1, Hlen, Hc. simpl. destruct (decide (1 = 1)); [reflexivity | congruence].
  - intros Hcon. simpl.
    destruct (fst (addPanelColumn host st1)) eqn:Hr.
    + destruct (proj1 Hiff eq_refl) as [_ Hx]. congruence.
    + destruct (Hno eq_refl) as (-> & _). exact Hempty.
Qed.

Lemma resetLayout_result_witness :
  dom (panel_columns (resetLayout host_1600 [1; 2; 3] three_columns)) = {[ 1 ]} /\
  ident_at (resetLayout host_1600 [1; 2; 3] three_columns) 1 = Some 3%nat.
Proof.
  assert (Hkeys : forall k, k ∈ dom (panel_columns three_columns) -> k ∈ [1; 2; 3]).
  { intros k Hk.
    assert (Hd : dom (panel_columns three_columns) = list_to_set [1; 2; 3])
      by (vm_compute; reflexivity).
    rewrite Hd in Hk. apply elem_of_list_to_set in Hk. exact Hk. }
  exact (proj1 (proj2 (resetLayout_result host_1600 [1; 2; 3] three_columns Hkeys)) eq_refl).
Defined.

End ExtensionReset.
